(** * Smart Issue Tracker API: a shallow embedding of the ticket CRUD service

    The development follows the layout of the Python package [app]:
    - [app/models/ticket.py]            the mapped class [Ticket];
    - [app/schemas/ticket.py]           the schemas [TicketCreate], [TicketUpdate], [TicketOut];
    - [app/services/ticket_service.py]  the service functions, written in a
      state-and-exception monad over the ORM session;
    - [app/routes/ticket_routes.py]     the route handlers;
    - [app/main.py]                     the application, a function from a
      request and a database to a response and a database.

    Python values are dynamically typed and are kept so ([value]); Python
    integers are unbounded ([Z]).  The ORM session, the validation library
    and the HTTP framework are collaborators of the program: the part of
    their behaviour the program relies on is written out below. *)

From Stdlib Require Import ZArith QArith.
From stdpp Require Import gmap strings list fin_maps.

Local Open Scope string_scope.
Local Open Scope list_scope.
Local Open Scope Z_scope.

(** ** Python values *)

#[warnings="-register-all"]
Inductive value : Type :=
  | PyNone
  | PyBool (b : bool)
  | PyInt (z : Z)
  | PyFloat (q : Q)
  | PyStr (s : string)
  | PyList (l : list value)
  | PyDict (d : list (string * value)).

(** A [dict] with string keys, in insertion order.  [d.get(k)]. *)
Fixpoint dict_get (k : string) (d : list (string * value)) : option value :=
  match d with
  | [] => None
  | (k', v) :: d' => if String.eqb k' k then Some v else dict_get k d'
  end.

Definition is_none (v : value) : bool :=
  match v with PyNone => true | _ => false end.

(** ** app/models/ticket.py *)

Module Ticket.
(** The attributes of an instance of the mapped class; an attribute that
    was never set reads as [None]. *)
Record t : Type := mk {
  id : value;
  title : value;
  description : value;
  status : value
}.

(** The column default of [status]. *)
Definition status_default : value := PyStr "open".

(** [setattr(obj, name, v)].  A name that is not a column becomes a plain
    attribute of the instance, which no part of the program reads. *)
Definition setattr (obj : t) (name : string) (v : value) : t :=
  if String.eqb name "id" then mk v (title obj) (description obj) (status obj)
  else if String.eqb name "title" then mk (id obj) v (description obj) (status obj)
  else if String.eqb name "description" then mk (id obj) (title obj) v (status obj)
  else if String.eqb name "status" then mk (id obj) (title obj) (description obj) v
  else obj.

(** The constructor of a mapped class takes keyword arguments and sets
    one attribute per keyword. *)
Definition init (kwargs : list (string * value)) : t :=
  fold_left (fun obj kv => setattr obj kv.1 kv.2) kwargs (mk PyNone PyNone PyNone PyNone).
End Ticket.

(** ** app/schemas/ticket.py *)

(** One entry of a validation error: where and what. *)
Record ErrorDetails : Type := mkError {
  err_type : string;
  err_loc : list string;
  err_msg : string;
  err_input : value
}.

Definition missing (name : string) (input : value) : ErrorDetails :=
  mkError "missing" ["body"; name] "Field required" input.

Definition string_type (name : string) (input : value) : ErrorDetails :=
  mkError "string_type" ["body"; name] "Input should be a valid string" input.

Definition model_attributes_type (input : value) : ErrorDetails :=
  mkError "model_attributes_type" ["body"]
    "Input should be a valid dictionary or object to extract fields from" input.

(** A required field annotated [str]. *)
Definition required_str (name : string) (d : list (string * value))
  : string + ErrorDetails :=
  match dict_get name d with
  | None => inr (missing name (PyDict d))
  | Some (PyStr s) => inl s
  | Some v => inr (string_type name v)
  end.

(** A field annotated [str | None = None].  The outer option records
    whether the field was given at all (the model's set of fields set);
    the inner one is the Python value, [None] or a string. *)
Definition optional_str (name : string) (d : list (string * value))
  : option (option string) + ErrorDetails :=
  match dict_get name d with
  | None => inl None
  | Some PyNone => inl (Some None)
  | Some (PyStr s) => inl (Some (Some s))
  | Some v => inr (string_type name v)
  end.

Definition errors {A} (r : A + ErrorDetails) : list ErrorDetails :=
  match r with inl _ => [] | inr e => [e] end.

Module TicketCreate.
(** [class TicketBase(BaseModel)]: [title: str], [description: str];
    [TicketCreate] adds nothing. *)
Record t : Type := mk {
  title : string;
  description : string
}.

(** Validation of a request body; fields the schema does not declare
    are ignored. *)
Definition model_validate (body : value) : t + list ErrorDetails :=
  match body with
  | PyDict d =>
      match required_str "title" d, required_str "description" d with
      | inl ti, inl de => inl (mk ti de)
      | r1, r2 => inr (errors r1 ++ errors r2)
      end
  | _ => inr [model_attributes_type body]
  end.

Definition model_dump (m : t) : list (string * value) :=
  [("title", PyStr (title m)); ("description", PyStr (description m))].
End TicketCreate.

Module TicketUpdate.
(** [title], [description], [status]: each [str | None = None]. *)
Record t : Type := mk {
  title : option (option string);
  description : option (option string);
  status : option (option string)
}.

Definition model_validate (body : value) : t + list ErrorDetails :=
  match body with
  | PyDict d =>
      match optional_str "title" d, optional_str "description" d,
            optional_str "status" d with
      | inl ti, inl de, inl st => inl (mk ti de st)
      | r1, r2, r3 => inr (errors r1 ++ errors r2 ++ errors r3)
      end
  | _ => inr [model_attributes_type body]
  end.

Definition to_value (o : option string) : value :=
  match o with None => PyNone | Some s => PyStr s end.

Definition dump_field (name : string) (f : option (option string))
  : list (string * value) :=
  match f with None => [] | Some o => [(name, to_value o)] end.

(** [model_dump(exclude_unset=True)]: the fields that were given, in
    declaration order. *)
Definition model_dump_exclude_unset (m : t) : list (string * value) :=
  dump_field "title" (title m) ++ dump_field "description" (description m)
    ++ dump_field "status" (status m).
End TicketUpdate.

Module TicketOut.
(** [TicketBase] with [id: int] and [status: str]. *)
Record t : Type := mk {
  title : string;
  description : string;
  id : Z;
  status : string
}.

(** [from_attributes]: the fields are read off an object and validated. *)
Definition model_validate (obj : Ticket.t) : option t :=
  match Ticket.title obj, Ticket.description obj, Ticket.id obj, Ticket.status obj with
  | PyStr ti, PyStr de, PyInt i, PyStr st => Some (mk ti de i st)
  | _, _, _, _ => None
  end.

Definition model_dump (m : t) : value :=
  PyDict [("title", PyStr (title m)); ("description", PyStr (description m));
          ("id", PyInt (id m)); ("status", PyStr (status m))].
End TicketOut.

(** ** The database

    One table, [tickets], with the columns [id] (primary key), [title],
    [description] and [status]; the three text columns are nullable, as
    [Column(String)] declares them. *)

Record Row : Type := mkRow {
  row_title : value;
  row_description : value;
  row_status : value
}.

(** Modelled from the spec: [app/database.py] (the engine and the session
    factory) is not among the sources, so the way the store assigns the
    primary key is taken from the data model of the specification: the
    [id] is an integer, unique, assigned by the store on creation and never
    reused.  The store keeps the last id it issued and issues the next
    integer. *)
Record Database : Type := mkDatabase {
  tickets : gmap Z Row;
  last_id : Z
}.

Definition empty_database : Database := mkDatabase ∅ 0.

Definition row_of (obj : Ticket.t) : Row :=
  mkRow (Ticket.title obj) (Ticket.description obj) (Ticket.status obj).

Definition instance_of (pk : Z) (r : Row) : Ticket.t :=
  Ticket.mk (PyInt pk) (row_title r) (row_description r) (row_status r).

(** ** Exceptions and the monad of a request *)

Inductive Exception : Type :=
  | HTTPException (status_code : Z) (detail : string)
  | IntegrityError
  | StaleDataError
  | FlushError
  | InvalidRequestError.

Inductive outcome (A : Type) : Type :=
  | Return (a : A)
  | Raise (e : Exception).
Arguments Return {A} a.
Arguments Raise {A} e.

(** A reference to a [Ticket] instance: its index in the heap. *)
Definition ref : Type := nat.

(** The session of one request, with the instances it has handed out.
    [bind] is the committed state of the database, [transaction] the state
    the open transaction sees. *)
Record Session : Type := mkSession {
  bind : Database;
  transaction : Database;
  heap : list Ticket.t;
  new : list ref;
  identity_map : list (Z * ref);
  deleted : list ref
}.

(** [SessionLocal()] *)
Definition SessionLocal (D : Database) : Session :=
  mkSession D D [] [] [] [].

(** [db.close()]: what was not committed is rolled back. *)
Definition close (db : Session) : Database := bind db.

Definition Py (A : Type) : Type := Session -> outcome A * Session.

#[export] Instance Py_ret : MRet Py := fun A a db => (Return a, db).

#[export] Instance Py_bind : MBind Py := fun A B f m db =>
  match m db with
  | (Return a, db') => f a db'
  | (Raise e, db') => (Raise e, db')
  end.

Definition raise {A} (e : Exception) : Py A := fun db => (Raise e, db).

Definition gets {A} (f : Session -> A) : Py A := fun db => (Return (f db), db).

Definition modify (f : Session -> Session) : Py unit := fun db => (Return tt, f db).

Definition lift {A} (o : outcome A) : Py A := fun db => (o, db).

(** [for x in l: body(x)] *)
Fixpoint for_each {A} (l : list A) (body : A -> Py unit) : Py unit :=
  match l with
  | [] => mret tt
  | x :: l' => body x ≫= fun _ => for_each l' body
  end.

(** [[f(x) for x in l]] *)
Fixpoint map_each {A B} (l : list A) (f : A -> Py B) : Py (list B) :=
  match l with
  | [] => mret []
  | x :: l' => y ← f x; ys ← map_each l' f; mret (y :: ys)
  end.

(** ** The ORM session

    What the service functions use of the session: instances are tracked by
    reference, a query hands out the instance the identity map already holds
    for a primary key, and pending changes reach the database when the
    session is flushed on commit. *)

Definition set_heap (h : list Ticket.t) (db : Session) : Session :=
  mkSession (bind db) (transaction db) h (new db) (identity_map db) (deleted db).

Definition set_transaction (D : Database) (db : Session) : Session :=
  mkSession (bind db) D (heap db) (new db) (identity_map db) (deleted db).

Definition set_bind (D : Database) (db : Session) : Session :=
  mkSession D (transaction db) (heap db) (new db) (identity_map db) (deleted db).

Definition set_new (l : list ref) (db : Session) : Session :=
  mkSession (bind db) (transaction db) (heap db) l (identity_map db) (deleted db).

Definition set_identity_map (m : list (Z * ref)) (db : Session) : Session :=
  mkSession (bind db) (transaction db) (heap db) (new db) m (deleted db).

Definition set_deleted (l : list ref) (db : Session) : Session :=
  mkSession (bind db) (transaction db) (heap db) (new db) (identity_map db) l.

Fixpoint identity_get (pk : Z) (m : list (Z * ref)) : option ref :=
  match m with
  | [] => None
  | (k, r) :: m' => if k =? pk then Some r else identity_get pk m'
  end.

Definition identity_discard (pk : Z) (m : list (Z * ref)) : list (Z * ref) :=
  filter (fun kr => negb (kr.1 =? pk)) m.

(** The instance behind a reference. *)
Definition deref (r : ref) : Py Ticket.t := fun db =>
  match heap db !! r with
  | Some obj => (Return obj, db)
  | None => (Raise InvalidRequestError, db)
  end.

Definition store (r : ref) (obj : Ticket.t) : Py unit :=
  modify (fun db => set_heap (<[r := obj]> (heap db)) db).

(** A fresh instance. *)
Definition instantiate (obj : Ticket.t) : Py ref := fun db =>
  (Return (length (heap db)), set_heap (heap db ++ [obj]) db).

(** [setattr(r, name, v)] on a reference. *)
Definition setattr (r : ref) (name : string) (v : value) : Py unit :=
  obj ← deref r; store r (Ticket.setattr obj name v).

(** *** SQL statements *)

Definition insert_row (pk : Z) (row : Row) (next : Z) (D : Database)
  : outcome (Z * Database) :=
  match tickets D !! pk with
  | Some _ => Raise IntegrityError
  | None => Return (pk, mkDatabase (<[pk := row]> (tickets D)) next)
  end.

(** [INSERT INTO tickets]: a row without an id gets the next one of the
    store (see [Database]); a primary key that is taken is refused. *)
Definition INSERT (obj : Ticket.t) (D : Database) : outcome (Z * Database) :=
  match Ticket.id obj with
  | PyNone => insert_row (last_id D + 1) (row_of obj) (last_id D + 1) D
  | PyInt pk => insert_row pk (row_of obj) (Z.max (last_id D) pk) D
  | _ => Raise IntegrityError
  end.

(** [UPDATE tickets SET title, description, status WHERE id = pk], for an
    instance whose [id] attribute is still its identity key. *)
Definition UPDATE (pk : Z) (obj : Ticket.t) (D : Database) : outcome Database :=
  match Ticket.id obj with
  | PyInt pk' =>
      if pk' =? pk then
        match tickets D !! pk with
        | Some _ => Return (mkDatabase (<[pk := row_of obj]> (tickets D)) (last_id D))
        | None => Raise StaleDataError
        end
      else Raise FlushError
  | _ => Raise FlushError
  end.

(** [DELETE FROM tickets WHERE id = pk] *)
Definition DELETE (pk : Z) (D : Database) : outcome Database :=
  match tickets D !! pk with
  | Some _ => Return (mkDatabase (delete pk (tickets D)) (last_id D))
  | None => Raise StaleDataError
  end.

(** *** Flush and commit *)

(** A column default applies to an attribute that holds [None] at INSERT. *)
Definition with_defaults (obj : Ticket.t) : Ticket.t :=
  if is_none (Ticket.status obj)
  then Ticket.setattr obj "status" Ticket.status_default
  else obj.

Definition flush_update (del : list ref) (kr : Z * ref) : Py unit :=
  if existsb (Nat.eqb kr.2) del then mret tt
  else
    obj ← deref kr.2;
    D ← gets transaction;
    D' ← lift (UPDATE kr.1 obj D);
    modify (set_transaction D').

Definition flush_insert (r : ref) : Py unit :=
  obj ← deref r;
  D ← gets transaction;
  res ← lift (INSERT (with_defaults obj) D);
  modify (set_transaction res.2);;
  store r (Ticket.setattr (with_defaults obj) "id" (PyInt res.1));;
  modify (fun db => set_identity_map (identity_map db ++ [(res.1, r)]) db).

Definition flush_delete (r : ref) : Py unit :=
  obj ← deref r;
  match Ticket.id obj with
  | PyInt pk =>
      D ← gets transaction;
      D' ← lift (DELETE pk D);
      modify (set_transaction D');;
      modify (fun db => set_identity_map (identity_discard pk (identity_map db)) db)
  | _ => raise FlushError
  end.

(** Updates, then inserts, then deletes. *)
Definition flush : Py unit :=
  im ← gets identity_map;
  del ← gets deleted;
  for_each im (flush_update del);;
  nw ← gets new;
  for_each nw flush_insert;;
  modify (set_new []);;
  for_each del flush_delete;;
  modify (set_deleted []).

(** [db.commit()] *)
Definition commit : Py unit :=
  flush;;
  modify (fun db => set_bind (transaction db) db).

(** [db.add(r)] *)
Definition add (r : ref) : Py unit :=
  modify (fun db => set_new (new db ++ [r]) db).

(** [db.delete(r)] *)
Definition delete_instance (r : ref) : Py unit :=
  modify (fun db => set_deleted (deleted db ++ [r]) db).

(** [db.refresh(r)]: the attributes of a persistent instance are loaded
    again from its row. *)
Definition refresh (r : ref) : Py unit :=
  obj ← deref r;
  im ← gets identity_map;
  D ← gets transaction;
  match Ticket.id obj with
  | PyInt pk =>
      match identity_get pk im, tickets D !! pk with
      | Some r', Some row =>
          if Nat.eqb r' r then store r (instance_of pk row)
          else raise InvalidRequestError
      | _, _ => raise InvalidRequestError
      end
  | _ => raise InvalidRequestError
  end.

(** The instance for a row a query returned. *)
Definition load (pk : Z) (row : Row) : Py ref :=
  im ← gets identity_map;
  match identity_get pk im with
  | Some r => mret r
  | None =>
      r ← instantiate (instance_of pk row);
      modify (fun db => set_identity_map (identity_map db ++ [(pk, r)]) db);;
      mret r
  end.

(** [db.query(Ticket).all()] *)
Definition query_all : Py (list ref) :=
  D ← gets transaction;
  map_each (map_to_list (tickets D)) (fun kr => load kr.1 kr.2).

(** [db.query(Ticket).filter(Ticket.id == ticket_id).first()] *)
Definition query_filter_id_first (ticket_id : Z) : Py (option ref) :=
  D ← gets transaction;
  match tickets D !! ticket_id with
  | Some row => r ← load ticket_id row; mret (Some r)
  | None => mret None
  end.

(** ** app/services/ticket_service.py *)

Module ticket_service.

Definition get_all_tickets : Py (list ref) :=
  query_all.

Definition get_ticket (ticket_id : Z) : Py (option ref) :=
  query_filter_id_first ticket_id.

Definition create_ticket (ticket : TicketCreate.t) : Py ref :=
  db_ticket ← instantiate (Ticket.init (TicketCreate.model_dump ticket));
  add db_ticket;;
  commit;;
  refresh db_ticket;;
  mret db_ticket.

Definition update_ticket (ticket_id : Z) (ticket : TicketUpdate.t)
  : Py (option ref) :=
  db_ticket ← get_ticket ticket_id;
  match db_ticket with
  | None => mret None
  | Some db_ticket =>
      for_each (TicketUpdate.model_dump_exclude_unset ticket)
        (fun fv => setattr db_ticket fv.1 fv.2);;
      commit;;
      refresh db_ticket;;
      mret (Some db_ticket)
  end.

Definition delete_ticket (ticket_id : Z) : Py (option ref) :=
  db_ticket ← get_ticket ticket_id;
  match db_ticket with
  | None => mret None
  | Some db_ticket =>
      delete_instance db_ticket;;
      commit;;
      mret (Some db_ticket)
  end.

End ticket_service.

(** ** app/routes/ticket_routes.py *)

Module ticket_routes.

Definition create (ticket : TicketCreate.t) : Py ref :=
  ticket_service.create_ticket ticket.

Definition list_all : Py (list ref) :=
  ticket_service.get_all_tickets.

Definition get (ticket_id : Z) : Py ref :=
  ticket ← ticket_service.get_ticket ticket_id;
  match ticket with
  | None => raise (HTTPException 404 "Ticket not found")
  | Some ticket => mret ticket
  end.

Definition update (ticket_id : Z) (ticket : TicketUpdate.t) : Py ref :=
  updated ← ticket_service.update_ticket ticket_id ticket;
  match updated with
  | None => raise (HTTPException 404 "Ticket not found")
  | Some updated => mret updated
  end.

Definition delete (ticket_id : Z) : Py ref :=
  deleted ← ticket_service.delete_ticket ticket_id;
  match deleted with
  | None => raise (HTTPException 404 "Ticket not found")
  | Some deleted => mret deleted
  end.

End ticket_routes.

(** ** app/main.py: the application

    The framework validates the request body against the schema of the
    handler's parameter, opens a session for the request ([get_db]), runs
    the handler, validates what it returns against the route's response
    model, and closes the session. *)

Inductive Request : Type :=
  | POST_tickets (body : value)
  | GET_tickets
  | GET_ticket (ticket_id : Z)
  | PUT_ticket (ticket_id : Z) (body : value)
  | DELETE_ticket (ticket_id : Z).

Record Response : Type := mkResponse {
  status_code : Z;
  content : value
}.

(** [response_model=TicketOut] *)
Definition serialize (r : ref) : Py (option value) :=
  obj ← deref r;
  mret (TicketOut.model_dump <$> TicketOut.model_validate obj).

Fixpoint sequence_options {A} (l : list (option A)) : option (list A) :=
  match l with
  | [] => Some []
  | o :: l' =>
      match o, sequence_options l' with
      | Some a, Some l'' => Some (a :: l'')
      | _, _ => None
      end
  end.

(** [response_model=list[TicketOut]] *)
Definition serialize_list (rs : list ref) : Py (option value) :=
  vs ← map_each rs serialize;
  mret (PyList <$> sequence_options vs).

Definition internal_server_error : Response :=
  mkResponse 500 (PyStr "Internal Server Error").

Definition error_value (e : ErrorDetails) : value :=
  PyDict [("type", PyStr (err_type e));
          ("loc", PyList (map PyStr (err_loc e)));
          ("msg", PyStr (err_msg e));
          ("input", err_input e)].

(** The response to a body that fails validation. *)
Definition request_validation_error (es : list ErrorDetails) : Response :=
  mkResponse 422 (PyDict [("detail", PyList (map error_value es))]).

(** One request against the database: the session lives for the request
    and is closed whatever the handler does. *)
Definition endpoint (success : Z) (handler : Py (option value)) (D : Database)
  : Response * Database :=
  let res := handler (SessionLocal D) in
  (match res.1 with
   | Return (Some v) => mkResponse success v
   | Return None => internal_server_error
   | Raise (HTTPException code detail) =>
       mkResponse code (PyDict [("detail", PyStr detail)])
   | Raise _ => internal_server_error
   end, close res.2).

(** The routes as the router serves them, on validated input: the handler
    with its status code and response model. *)
Definition route_create (ticket : TicketCreate.t) : Database -> Response * Database :=
  endpoint 201 (ticket_routes.create ticket ≫= serialize).

Definition route_list_all : Database -> Response * Database :=
  endpoint 200 (ticket_routes.list_all ≫= serialize_list).

Definition route_get (ticket_id : Z) : Database -> Response * Database :=
  endpoint 200 (ticket_routes.get ticket_id ≫= serialize).

Definition route_update (ticket_id : Z) (ticket : TicketUpdate.t)
  : Database -> Response * Database :=
  endpoint 200 (ticket_routes.update ticket_id ticket ≫= serialize).

Definition route_delete (ticket_id : Z) : Database -> Response * Database :=
  endpoint 200 (ticket_routes.delete ticket_id ≫= serialize).

Definition app (req : Request) (D : Database) : Response * Database :=
  match req with
  | POST_tickets body =>
      match TicketCreate.model_validate body with
      | inl ticket => route_create ticket D
      | inr es => (request_validation_error es, D)
      end
  | GET_tickets => route_list_all D
  | GET_ticket ticket_id => route_get ticket_id D
  | PUT_ticket ticket_id body =>
      match TicketUpdate.model_validate body with
      | inl ticket => route_update ticket_id ticket D
      | inr es => (request_validation_error es, D)
      end
  | DELETE_ticket ticket_id => route_delete ticket_id D
  end.

(** A run of the application: the requests in order, the responses in
    order, and the database after the last one. *)
Fixpoint run (reqs : list Request) (D : Database) : list Response * Database :=
  match reqs with
  | [] => ([], D)
  | req :: reqs' =>
      let r := app req D in
      let rs := run reqs' r.2 in
      (r.1 :: rs.1, rs.2)
  end.

(** The database after a run from the empty store. *)
Definition state_after (reqs : list Request) : Database :=
  (run reqs empty_database).2.

(** ** app/tests/test_tickets.py: the data of the tests *)

(** [payload = {"title": "Bug", "description": "Fix crash"}] *)
Definition payload : value :=
  PyDict [("title", PyStr "Bug"); ("description", PyStr "Fix crash")].

(** The body of the update test, [{"status": "closed"}]. *)
Definition close_it : value := PyDict [("status", PyStr "closed")].

(** A store holding the ticket of the tests. *)
Definition one_ticket : Database :=
  mkDatabase {[1 := mkRow (PyStr "Bug") (PyStr "Fix crash") (PyStr "open")]} 1.

(** ** The transitions of the store, written directly

    What a creation inserts and what an update leaves in a row, field by
    field; the service functions are compared with these below. *)

Definition created_row (ticket : TicketCreate.t) : Row :=
  mkRow (PyStr (TicketCreate.title ticket))
        (PyStr (TicketCreate.description ticket))
        (PyStr "open").

(** A field that was given replaces the stored value; one that was not
    given leaves it. *)
Definition updated_field (f : option (option string)) (old : value) : value :=
  match f with
  | Some o => TicketUpdate.to_value o
  | None => old
  end.

Definition updated_row (ticket : TicketUpdate.t) (row : Row) : Row :=
  mkRow (updated_field (TicketUpdate.title ticket) (row_title row))
        (updated_field (TicketUpdate.description ticket) (row_description row))
        (updated_field (TicketUpdate.status ticket) (row_status row)).

Definition created_database (ticket : TicketCreate.t) (D : Database) : Database :=
  mkDatabase (<[last_id D + 1 := created_row ticket]> (tickets D)) (last_id D + 1).

Definition updated_database (ticket_id : Z) (row : Row) (D : Database) : Database :=
  mkDatabase (<[ticket_id := row]> (tickets D)) (last_id D).

Definition deleted_database (ticket_id : Z) (D : Database) : Database :=
  mkDatabase (delete ticket_id (tickets D)) (last_id D).

(** ** The responses of the routes and the effect of a request *)

Definition not_found : Response :=
  mkResponse 404 (PyDict [("detail", PyStr "Ticket not found")]).

(** The response of a route whose handler returned the instance [obj]. *)
Definition response_of (success : Z) (obj : Ticket.t) : Response :=
  match TicketOut.model_validate obj with
  | Some m => mkResponse success (TicketOut.model_dump m)
  | None => internal_server_error
  end.

(** What a request does to the database. *)
Definition step (req : Request) (D : Database) : Database :=
  match req with
  | POST_tickets body =>
      match TicketCreate.model_validate body with
      | inl ticket => created_database ticket D
      | inr _ => D
      end
  | GET_tickets => D
  | GET_ticket _ => D
  | PUT_ticket ticket_id body =>
      match TicketUpdate.model_validate body, tickets D !! ticket_id with
      | inl ticket, Some row => updated_database ticket_id (updated_row ticket row) D
      | _, _ => D
      end
  | DELETE_ticket ticket_id =>
      match tickets D !! ticket_id with
      | Some _ => deleted_database ticket_id D
      | None => D
      end
  end.

(** ** Invariants of the store *)

Definition keeps_bind {A} (m : Py A) : Prop :=
  forall db, bind (m db).2 = bind db.

(** Every id in the table has been issued. *)
Definition ids_bounded (D : Database) : Prop :=
  forall k, is_Some (tickets D !! k) -> k <= last_id D.

Definition row_non_null (row : Row) : Prop :=
  row_title row <> PyNone /\ row_description row <> PyNone /\ row_status row <> PyNone.

(** Every stored ticket has a title, a description and a status; its id is
    the integer it is stored under. *)
Definition all_non_null (D : Database) : Prop :=
  forall k row, tickets D !! k = Some row -> row_non_null row.

(** A PUT whose body gives some field as null. *)
Definition gives_null (req : Request) : Prop :=
  match req with
  | PUT_ticket _ body =>
      match TicketUpdate.model_validate body with
      | inl ticket =>
          TicketUpdate.title ticket = Some None \/
          TicketUpdate.description ticket = Some None \/
          TicketUpdate.status ticket = Some None
      | inr _ => False
      end
  | _ => False
  end.

(** ** Listing, updates in sequence, reads: written directly *)

Definition is_str (v : value) : bool :=
  match v with PyStr _ => true | _ => false end.

(** A row that the output schema accepts: three strings. *)
Definition row_is_text (row : Row) : bool :=
  is_str (row_title row) && is_str (row_description row) && is_str (row_status row).

(** The serialized ticket of a stored row, when [TicketOut] accepts it. *)
Definition entity (kr : Z * Row) : option value :=
  TicketOut.model_dump <$> TicketOut.model_validate (instance_of kr.1 kr.2).

(** The answer of the listing route for the rows a query returned. *)
Definition list_response (rows : list (Z * Row)) : Response :=
  match sequence_options (map entity rows) with
  | Some vs => mkResponse 200 (PyList vs)
  | None => internal_server_error
  end.

(** Every stored row is one the output schema accepts. *)
Definition all_text (D : Database) : bool :=
  forallb (fun kr => row_is_text kr.2) (map_to_list (tickets D)).

(** How a body [d] must hold the field [name] for validation to read it
    as [f]: absent, null, or a string. *)
Definition given_as (d : list (string * value)) (name : string)
  (f : option (option string)) : Prop :=
  dict_get name d =
  match f with
  | None => None
  | Some o => Some (TicketUpdate.to_value o)
  end.

(** Two updates in one: a field the second gives wins, else the first's. *)
Definition merge_field (f1 f2 : option (option string)) : option (option string) :=
  match f2 with
  | Some o => Some o
  | None => f1
  end.

Definition merge_updates (u1 u2 : TicketUpdate.t) : TicketUpdate.t :=
  TicketUpdate.mk
    (merge_field (TicketUpdate.title u1) (TicketUpdate.title u2))
    (merge_field (TicketUpdate.description u1) (TicketUpdate.description u2))
    (merge_field (TicketUpdate.status u1) (TicketUpdate.status u2)).

(** The requests served by the two GET routes. *)
Definition is_read (req : Request) : bool :=
  match req with
  | GET_tickets | GET_ticket _ => true
  | _ => false
  end.

(** A value a field annotated [str | None] accepts. *)
Definition is_str_or_none (v : value) : bool :=
  match v with PyNone | PyStr _ => true | _ => false end.

(** ** Running the monad *)

Lemma bind_eq {A B} (m : Py A) (f : A -> Py B) db :
  (m ≫= f) db =
  match m db with
  | (Return a, db') => f a db'
  | (Raise e, db') => (Raise e, db')
  end.
Proof. reflexivity. Qed.

Lemma ret_eq {A} (a : A) db : (mret a : Py A) db = (Return a, db).
Proof. reflexivity. Qed.

Ltac py_step :=
  first
    [ rewrite bind_eq
    | rewrite ret_eq
    | progress cbn
    | rewrite lookup_insert_eq
    | rewrite lookup_delete_eq
    | rewrite Z.eqb_refl
    | match goal with H : _ !! _ = _ |- _ => rewrite H end ].

Ltac py_run := repeat py_step.

(** ** The service functions on a fresh session *)

Lemma get_ticket_found D ticket_id row :
  tickets D !! ticket_id = Some row ->
  ticket_service.get_ticket ticket_id (SessionLocal D) =
  (Return (Some 0%nat),
   mkSession D D [instance_of ticket_id row] [] [(ticket_id, 0%nat)] []).
Proof.
  intros Hrow.
  unfold ticket_service.get_ticket, query_filter_id_first, load.
  py_run. reflexivity.
Qed.

Lemma get_ticket_missing D ticket_id :
  tickets D !! ticket_id = None ->
  ticket_service.get_ticket ticket_id (SessionLocal D) = (Return None, SessionLocal D).
Proof.
  intros Hrow.
  unfold ticket_service.get_ticket, query_filter_id_first.
  py_run. reflexivity.
Qed.

Lemma create_ticket_run D ticket :
  tickets D !! (last_id D + 1) = None ->
  ticket_service.create_ticket ticket (SessionLocal D) =
  (Return 0%nat,
   mkSession (created_database ticket D) (created_database ticket D)
     [instance_of (last_id D + 1) (created_row ticket)] []
     [(last_id D + 1, 0%nat)] []).
Proof.
  intros Hfresh.
  unfold ticket_service.create_ticket, commit, flush, refresh, flush_insert,
    INSERT, insert_row.
  py_run. reflexivity.
Qed.

Lemma update_ticket_run D ticket_id ticket row :
  tickets D !! ticket_id = Some row ->
  ticket_service.update_ticket ticket_id ticket (SessionLocal D) =
  (Return (Some 0%nat),
   mkSession (updated_database ticket_id (updated_row ticket row) D)
     (updated_database ticket_id (updated_row ticket row) D)
     [instance_of ticket_id (updated_row ticket row)] []
     [(ticket_id, 0%nat)] []).
Proof.
  intros Hrow.
  unfold ticket_service.update_ticket.
  rewrite bind_eq, (get_ticket_found _ _ _ Hrow).
  unfold commit, flush, refresh, flush_update, UPDATE, setattr.
  destruct ticket as [[ti|] [de|] [st|]], row as [rt rd rs];
    py_run; reflexivity.
Qed.

Lemma update_ticket_missing D ticket_id ticket :
  tickets D !! ticket_id = None ->
  ticket_service.update_ticket ticket_id ticket (SessionLocal D) =
  (Return None, SessionLocal D).
Proof.
  intros Hrow.
  unfold ticket_service.update_ticket.
  rewrite bind_eq, (get_ticket_missing _ _ Hrow). reflexivity.
Qed.

Lemma delete_ticket_run D ticket_id row :
  tickets D !! ticket_id = Some row ->
  ticket_service.delete_ticket ticket_id (SessionLocal D) =
  (Return (Some 0%nat),
   mkSession (deleted_database ticket_id D) (deleted_database ticket_id D)
     [instance_of ticket_id row] [] [] []).
Proof.
  intros Hrow.
  unfold ticket_service.delete_ticket.
  rewrite bind_eq, (get_ticket_found _ _ _ Hrow).
  unfold commit, flush, flush_delete, flush_update, DELETE, delete_instance.
  py_run. reflexivity.
Qed.

Lemma delete_ticket_missing D ticket_id :
  tickets D !! ticket_id = None ->
  ticket_service.delete_ticket ticket_id (SessionLocal D) =
  (Return None, SessionLocal D).
Proof.
  intros Hrow.
  unfold ticket_service.delete_ticket.
  rewrite bind_eq, (get_ticket_missing _ _ Hrow). reflexivity.
Qed.

(** ** The routes on a fresh session *)

Lemma serialize_eq r db obj :
  heap db !! r = Some obj ->
  serialize r db =
  (Return (TicketOut.model_dump <$> TicketOut.model_validate obj), db).
Proof.
  intros Hobj. unfold serialize, deref. rewrite bind_eq, Hobj. reflexivity.
Qed.

Lemma endpoint_return success (handler : Py ref) D r db' obj :
  handler (SessionLocal D) = (Return r, db') ->
  heap db' !! r = Some obj ->
  endpoint success (handler ≫= serialize) D = (response_of success obj, bind db').
Proof.
  intros Hrun Hobj. unfold endpoint, response_of.
  rewrite bind_eq, Hrun, (serialize_eq _ _ _ Hobj).
  destruct (TicketOut.model_validate obj); reflexivity.
Qed.

Lemma endpoint_http_exception success (handler : Py ref) D code detail db' :
  handler (SessionLocal D) = (Raise (HTTPException code detail), db') ->
  endpoint success (handler ≫= serialize) D =
  (mkResponse code (PyDict [("detail", PyStr detail)]), bind db').
Proof.
  intros Hrun. unfold endpoint. rewrite bind_eq, Hrun. reflexivity.
Qed.

Lemma route_create_run D ticket :
  tickets D !! (last_id D + 1) = None ->
  route_create ticket D =
  (response_of 201 (instance_of (last_id D + 1) (created_row ticket)),
   created_database ticket D).
Proof.
  intros Hfresh. unfold route_create, ticket_routes.create.
  by rewrite (endpoint_return _ _ _ _ _ _ (create_ticket_run D ticket Hfresh) eq_refl).
Qed.

Lemma routes_get_found D ticket_id row :
  tickets D !! ticket_id = Some row ->
  ticket_routes.get ticket_id (SessionLocal D) =
  (Return 0%nat,
   mkSession D D [instance_of ticket_id row] [] [(ticket_id, 0%nat)] []).
Proof.
  intros Hrow. unfold ticket_routes.get.
  by rewrite bind_eq, (get_ticket_found _ _ _ Hrow).
Qed.

Lemma routes_get_missing D ticket_id :
  tickets D !! ticket_id = None ->
  ticket_routes.get ticket_id (SessionLocal D) =
  (Raise (HTTPException 404 "Ticket not found"), SessionLocal D).
Proof.
  intros Hrow. unfold ticket_routes.get.
  by rewrite bind_eq, (get_ticket_missing _ _ Hrow).
Qed.

Lemma routes_update_found D ticket_id ticket row :
  tickets D !! ticket_id = Some row ->
  ticket_routes.update ticket_id ticket (SessionLocal D) =
  (Return 0%nat,
   mkSession (updated_database ticket_id (updated_row ticket row) D)
     (updated_database ticket_id (updated_row ticket row) D)
     [instance_of ticket_id (updated_row ticket row)] []
     [(ticket_id, 0%nat)] []).
Proof.
  intros Hrow. unfold ticket_routes.update.
  by rewrite bind_eq, (update_ticket_run _ _ _ _ Hrow).
Qed.

Lemma routes_update_missing D ticket_id ticket :
  tickets D !! ticket_id = None ->
  ticket_routes.update ticket_id ticket (SessionLocal D) =
  (Raise (HTTPException 404 "Ticket not found"), SessionLocal D).
Proof.
  intros Hrow. unfold ticket_routes.update.
  by rewrite bind_eq, (update_ticket_missing _ _ _ Hrow).
Qed.

Lemma routes_delete_found D ticket_id row :
  tickets D !! ticket_id = Some row ->
  ticket_routes.delete ticket_id (SessionLocal D) =
  (Return 0%nat,
   mkSession (deleted_database ticket_id D) (deleted_database ticket_id D)
     [instance_of ticket_id row] [] [] []).
Proof.
  intros Hrow. unfold ticket_routes.delete.
  by rewrite bind_eq, (delete_ticket_run _ _ _ Hrow).
Qed.

Lemma routes_delete_missing D ticket_id :
  tickets D !! ticket_id = None ->
  ticket_routes.delete ticket_id (SessionLocal D) =
  (Raise (HTTPException 404 "Ticket not found"), SessionLocal D).
Proof.
  intros Hrow. unfold ticket_routes.delete.
  by rewrite bind_eq, (delete_ticket_missing _ _ Hrow).
Qed.

Lemma route_get_run D ticket_id row :
  tickets D !! ticket_id = Some row ->
  route_get ticket_id D = (response_of 200 (instance_of ticket_id row), D).
Proof.
  intros Hrow. unfold route_get.
  by rewrite (endpoint_return _ _ _ _ _ _ (routes_get_found _ _ _ Hrow) eq_refl).
Qed.

Lemma route_get_404 D ticket_id :
  tickets D !! ticket_id = None ->
  route_get ticket_id D = (not_found, D).
Proof.
  intros Hrow. unfold route_get.
  by rewrite (endpoint_http_exception _ _ _ _ _ _ (routes_get_missing _ _ Hrow)).
Qed.

Lemma route_update_run D ticket_id ticket row :
  tickets D !! ticket_id = Some row ->
  route_update ticket_id ticket D =
  (response_of 200 (instance_of ticket_id (updated_row ticket row)),
   updated_database ticket_id (updated_row ticket row) D).
Proof.
  intros Hrow. unfold route_update.
  by rewrite (endpoint_return _ _ _ _ _ _ (routes_update_found _ _ _ _ Hrow) eq_refl).
Qed.

Lemma route_update_404 D ticket_id ticket :
  tickets D !! ticket_id = None ->
  route_update ticket_id ticket D = (not_found, D).
Proof.
  intros Hrow. unfold route_update.
  by rewrite (endpoint_http_exception _ _ _ _ _ _ (routes_update_missing _ _ _ Hrow)).
Qed.

Lemma route_delete_run D ticket_id row :
  tickets D !! ticket_id = Some row ->
  route_delete ticket_id D =
  (response_of 200 (instance_of ticket_id row), deleted_database ticket_id D).
Proof.
  intros Hrow. unfold route_delete.
  by rewrite (endpoint_return _ _ _ _ _ _ (routes_delete_found _ _ _ Hrow) eq_refl).
Qed.

Lemma route_delete_404 D ticket_id :
  tickets D !! ticket_id = None ->
  route_delete ticket_id D = (not_found, D).
Proof.
  intros Hrow. unfold route_delete.
  by rewrite (endpoint_http_exception _ _ _ _ _ _ (routes_delete_missing _ _ Hrow)).
Qed.

(** *** Listing leaves the database alone *)

Lemma keeps_bind_bind {A B} (m : Py A) (f : A -> Py B) :
  keeps_bind m -> (forall a, keeps_bind (f a)) -> keeps_bind (m ≫= f).
Proof.
  intros Hm Hf db. rewrite bind_eq. specialize (Hm db).
  destruct (m db) as [[a|e] db']; cbn in *; [rewrite Hf|]; done.
Qed.

Lemma keeps_bind_ret {A} (a : A) : keeps_bind (mret a : Py A).
Proof. by intros db. Qed.

Lemma keeps_bind_gets {A} (f : Session -> A) : keeps_bind (gets f).
Proof. by intros db. Qed.

Lemma keeps_bind_deref r : keeps_bind (deref r).
Proof. intros db. unfold deref. by destruct (heap db !! r). Qed.

Lemma keeps_bind_load pk row : keeps_bind (load pk row).
Proof.
  unfold load. apply keeps_bind_bind; [apply keeps_bind_gets | intros im].
  destruct (identity_get pk im); [apply keeps_bind_ret | by intros db].
Qed.

Lemma keeps_bind_map_each {A B} (l : list A) (f : A -> Py B) :
  (forall a, keeps_bind (f a)) -> keeps_bind (map_each l f).
Proof.
  intros Hf. induction l as [|a l IH]; cbn; [apply keeps_bind_ret |].
  apply keeps_bind_bind; [apply Hf | intros y].
  apply keeps_bind_bind; [apply IH | intros ys; apply keeps_bind_ret].
Qed.

Lemma keeps_bind_serialize r : keeps_bind (serialize r).
Proof.
  unfold serialize.
  apply keeps_bind_bind; [apply keeps_bind_deref | intros obj; apply keeps_bind_ret].
Qed.

Lemma route_list_all_database D : (route_list_all D).2 = D.
Proof.
  unfold route_list_all, endpoint, close; cbn [snd].
  assert (H : keeps_bind (ticket_routes.list_all ≫= serialize_list)).
  { apply keeps_bind_bind.
    - unfold ticket_routes.list_all, ticket_service.get_all_tickets, query_all.
      apply keeps_bind_bind; [apply keeps_bind_gets | intros D'].
      apply keeps_bind_map_each. intros kr. apply keeps_bind_load.
    - intros rs. unfold serialize_list.
      apply keeps_bind_bind; [| intros vs; apply keeps_bind_ret].
      apply keeps_bind_map_each, keeps_bind_serialize. }
  apply H.
Qed.

(** ** The effect of a request on the database *)

Lemma app_database req D :
  tickets D !! (last_id D + 1) = None -> (app req D).2 = step req D.
Proof.
  intros Hfresh.
  destruct req as [body| |ticket_id|ticket_id body|ticket_id]; unfold app, step.
  - destruct (TicketCreate.model_validate body); [|done].
    by rewrite route_create_run.
  - apply route_list_all_database.
  - destruct (tickets D !! ticket_id) eqn:Hrow.
    + by rewrite (route_get_run _ _ _ Hrow).
    + by rewrite route_get_404.
  - destruct (TicketUpdate.model_validate body); [|done].
    destruct (tickets D !! ticket_id) eqn:Hrow.
    + by rewrite (route_update_run _ _ _ _ Hrow).
    + by rewrite route_update_404.
  - destruct (tickets D !! ticket_id) eqn:Hrow.
    + by rewrite (route_delete_run _ _ _ Hrow).
    + by rewrite route_delete_404.
Qed.

Lemma ids_bounded_fresh D :
  ids_bounded D -> tickets D !! (last_id D + 1) = None.
Proof.
  intros HD. destruct (tickets D !! (last_id D + 1)) eqn:E; [|done].
  specialize (HD (last_id D + 1)). rewrite E in HD.
  assert (last_id D + 1 <= last_id D) by (apply HD; eauto). lia.
Qed.

Lemma ids_bounded_empty : ids_bounded empty_database.
Proof. intros k [row Hrow]. cbn in Hrow. by rewrite lookup_empty in Hrow. Qed.

Lemma step_ids_bounded req D : ids_bounded D -> ids_bounded (step req D).
Proof.
  intros HD. destruct req as [body| |ticket_id|ticket_id body|ticket_id]; cbn; try done.
  - destruct (TicketCreate.model_validate body); [|done].
    intros k. cbn. rewrite lookup_insert. case_decide; [lia|].
    intros Hk. specialize (HD k Hk). lia.
  - destruct (TicketUpdate.model_validate body); [|done].
    destruct (tickets D !! ticket_id) eqn:Hrow; [|done].
    intros k. cbn. rewrite lookup_insert. case_decide; [|by apply HD].
    subst. intros _. apply HD. by rewrite Hrow.
  - destruct (tickets D !! ticket_id) eqn:Hrow; [|done].
    intros k. cbn. rewrite lookup_delete. case_decide; [by intros [? ?]|by apply HD].
Qed.

Lemma step_last_id req D : last_id D <= last_id (step req D).
Proof.
  destruct req as [body| |ticket_id|ticket_id body|ticket_id]; cbn; try lia.
  - destruct (TicketCreate.model_validate body); cbn; lia.
  - destruct (TicketUpdate.model_validate body); [|lia].
    destruct (tickets D !! ticket_id); cbn; lia.
  - destruct (tickets D !! ticket_id); cbn; lia.
Qed.

Lemma run_app reqs1 reqs2 D :
  (run (reqs1 ++ reqs2) D).2 = (run reqs2 (run reqs1 D).2).2.
Proof.
  revert D. induction reqs1 as [|req reqs1 IH]; intros D; [done|].
  cbn. apply IH.
Qed.

Lemma state_after_app reqs1 reqs2 :
  state_after (reqs1 ++ reqs2) = (run reqs2 (state_after reqs1)).2.
Proof. apply run_app. Qed.

Lemma state_after_snoc reqs req :
  state_after (reqs ++ [req]) = (app req (state_after reqs)).2.
Proof. by rewrite state_after_app. Qed.

Lemma run_ids_bounded reqs D : ids_bounded D -> ids_bounded (run reqs D).2.
Proof.
  revert D. induction reqs as [|req reqs IH]; intros D HD; [done|].
  cbn. apply IH. rewrite app_database by by apply ids_bounded_fresh.
  by apply step_ids_bounded.
Qed.

Lemma run_last_id reqs D : ids_bounded D -> last_id D <= last_id (run reqs D).2.
Proof.
  revert D. induction reqs as [|req reqs IH]; intros D HD; [cbn; lia|].
  cbn. etrans; [apply (step_last_id req)|].
  rewrite <- app_database by by apply ids_bounded_fresh.
  apply IH. rewrite app_database by by apply ids_bounded_fresh.
  by apply step_ids_bounded.
Qed.

Lemma state_after_ids_bounded reqs : ids_bounded (state_after reqs).
Proof. apply run_ids_bounded, ids_bounded_empty. Qed.

Lemma state_after_fresh reqs :
  tickets (state_after reqs) !! (last_id (state_after reqs) + 1) = None.
Proof. apply ids_bounded_fresh, state_after_ids_bounded. Qed.

(** ** Validation of bodies *)

Lemma model_validate_dump ticket :
  TicketCreate.model_validate (PyDict (TicketCreate.model_dump ticket)) = inl ticket.
Proof. by destruct ticket. Qed.

Lemma response_of_strings success pk ti de st :
  response_of success (instance_of pk (mkRow (PyStr ti) (PyStr de) (PyStr st))) =
  mkResponse success
    (PyDict [("title", PyStr ti); ("description", PyStr de);
             ("id", PyInt pk); ("status", PyStr st)]).
Proof. reflexivity. Qed.

Lemma model_validate_missing (d : list (string * value)) :
  dict_get "title" d = None \/ dict_get "description" d = None ->
  exists es,
    TicketCreate.model_validate (PyDict d) = inr es /\
    (dict_get "title" d = None -> missing "title" (PyDict d) ∈ es) /\
    (dict_get "description" d = None -> missing "description" (PyDict d) ∈ es).
Proof.
  intros Hmissing. unfold TicketCreate.model_validate, required_str.
  destruct (dict_get "title" d) as [vt|], (dict_get "description" d) as [vd|].
  - by destruct Hmissing.
  - destruct vt; eexists; (split; [reflexivity|]);
      (split; [done | intros _; cbn; repeat constructor]).
  - destruct vd; eexists; (split; [reflexivity|]);
      (split; [intros _; cbn; repeat constructor | done]).
  - eexists; split; [reflexivity|].
    split; intros _; cbn; repeat constructor.
Qed.

(** ** Ids along a run *)

Lemma step_keeps_id req D k :
  is_Some (tickets D !! k) -> req <> DELETE_ticket k ->
  is_Some (tickets (step req D) !! k).
Proof.
  intros Hk Hreq.
  destruct req as [body| |ticket_id|ticket_id body|ticket_id]; cbn; try done.
  - destruct (TicketCreate.model_validate body); [|done].
    cbn. rewrite lookup_insert. by case_decide.
  - destruct (TicketUpdate.model_validate body); [|done].
    destruct (tickets D !! ticket_id) eqn:Hrow; [|done].
    cbn. rewrite lookup_insert. by case_decide.
  - destruct (tickets D !! ticket_id) eqn:Hrow; [|done].
    cbn. rewrite lookup_delete_ne; [done | congruence].
Qed.

Lemma update_field_names (ticket : TicketUpdate.t) (fv : string * value) :
  fv ∈ TicketUpdate.model_dump_exclude_unset ticket -> fv.1 <> "id".
Proof.
  destruct ticket as [[ti|] [de|] [st|]];
    unfold TicketUpdate.model_dump_exclude_unset; cbn; intros Hin;
    repeat match goal with
           | H : _ ∈ _ :: _ |- _ => apply elem_of_cons in H as [->|H]
           | H : _ ∈ [] |- _ => by apply elem_of_nil in H
           end; done.
Qed.

(** ** Null fields *)

Lemma updated_field_non_null f old :
  f <> Some None -> old <> PyNone -> updated_field f old <> PyNone.
Proof. by destruct f as [[s|]|]. Qed.

(** Creation, reading, deletion and updates that give no null keep every
    stored field non-null. *)
Lemma non_null_preserved req D :
  tickets D !! (last_id D + 1) = None ->
  all_non_null D -> ~ gives_null req -> all_non_null (app req D).2.
Proof.
  intros Hfresh HD Hreq. rewrite app_database by done.
  destruct req as [body| |ticket_id|ticket_id body|ticket_id]; cbn in *; try done.
  - destruct (TicketCreate.model_validate body); [|done].
    intros k row. cbn. rewrite lookup_insert. case_decide; [|by apply HD].
    by intros [= <-].
  - destruct (TicketUpdate.model_validate body) as [ticket|]; [|done].
    destruct (tickets D !! ticket_id) as [old|] eqn:Hold; [|done].
    intros k row. cbn. rewrite lookup_insert. case_decide; [|by apply HD].
    intros [= <-]. destruct (HD _ _ Hold) as (Ht & Hd & Hs).
    repeat split; cbn; apply updated_field_non_null; tauto.
  - destruct (tickets D !! ticket_id); [|done].
    intros k row. cbn. rewrite lookup_delete. case_decide; [done|by apply HD].
Qed.

Lemma route_delete_200 D ticket_id ti de st :
  tickets D !! ticket_id = Some (mkRow (PyStr ti) (PyStr de) (PyStr st)) ->
  app (DELETE_ticket ticket_id) D =
  (mkResponse 200
     (PyDict [("title", PyStr ti); ("description", PyStr de);
              ("id", PyInt ticket_id); ("status", PyStr st)]),
   deleted_database ticket_id D).
Proof.
  intros Hrow. unfold app. by rewrite (route_delete_run _ _ _ Hrow).
Qed.

(** ** The tests of the repository, run on the model *)

(** [test_create_ticket], [test_get_ticket], [test_update_ticket],
    [test_list_tickets] and [test_delete_ticket], in one run from the empty
    store. *)
Example tests_run :
  (run [POST_tickets payload; GET_ticket 1; PUT_ticket 1 close_it; GET_tickets;
        DELETE_ticket 1; GET_ticket 1] empty_database).1 =
  [mkResponse 201 (PyDict [("title", PyStr "Bug"); ("description", PyStr "Fix crash");
                           ("id", PyInt 1); ("status", PyStr "open")]);
   mkResponse 200 (PyDict [("title", PyStr "Bug"); ("description", PyStr "Fix crash");
                           ("id", PyInt 1); ("status", PyStr "open")]);
   mkResponse 200 (PyDict [("title", PyStr "Bug"); ("description", PyStr "Fix crash");
                           ("id", PyInt 1); ("status", PyStr "closed")]);
   mkResponse 200
     (PyList [PyDict [("title", PyStr "Bug"); ("description", PyStr "Fix crash");
                      ("id", PyInt 1); ("status", PyStr "closed")]]);
   mkResponse 200 (PyDict [("title", PyStr "Bug"); ("description", PyStr "Fix crash");
                           ("id", PyInt 1); ("status", PyStr "closed")]);
   mkResponse 404 (PyDict [("detail", PyStr "Ticket not found")])].
Proof. reflexivity. Qed.

(** * Properties of the service *)

(** C1: for every valid creation input, in every state the application
    can reach, [create_ticket] returns an instance with the title and
    description of the input, with status "open" and with an integer id
    that the store assigned and that no stored ticket had; the row is in
    the committed table under that id and no other row changed; and for
    every body that validates to the input, the body of the tests among
    them, the POST route answers 201 with that entity, whose status is
    "open". *)
Theorem create_persists_open_ticket (reqs : list Request) (ticket : TicketCreate.t) :
  let D := state_after reqs in
  let new_id := last_id D + 1 in
  let entity :=
    Ticket.mk (PyInt new_id) (PyStr (TicketCreate.title ticket))
      (PyStr (TicketCreate.description ticket)) (PyStr "open") in
  exists r db',
    ticket_service.create_ticket ticket (SessionLocal D) = (Return r, db') /\
    heap db' !! r = Some entity /\
    tickets D !! new_id = None /\
    tickets (close db') !! new_id = Some (row_of entity) /\
    (forall k, k <> new_id -> tickets (close db') !! k = tickets D !! k) /\
    (forall body, TicketCreate.model_validate body = inl ticket ->
       app (POST_tickets body) D =
         (mkResponse 201
            (PyDict [("title", PyStr (TicketCreate.title ticket));
                     ("description", PyStr (TicketCreate.description ticket));
                     ("id", PyInt new_id); ("status", PyStr "open")]),
          close db')) /\
    TicketCreate.model_validate (PyDict (TicketCreate.model_dump ticket)) = inl ticket /\
    TicketCreate.model_validate payload = inl (TicketCreate.mk "Bug" "Fix crash").
Proof.
  intros D new_id entity.
  pose proof (state_after_fresh reqs) as Hfresh. fold D in Hfresh.
  eexists _, _. split; [by apply create_ticket_run|].
  split; [reflexivity|]. split; [exact Hfresh|].
  split; [apply lookup_insert_eq|].
  split; [intros k Hk; cbn; by rewrite lookup_insert_ne|].
  split; [|split; [apply model_validate_dump | reflexivity]].
  intros body Hbody. unfold app. rewrite Hbody, route_create_run by exact Hfresh.
  reflexivity.
Qed.

(** C2: for every ticket in the store and every update input,
    [update_ticket] returns the ticket, under the same id, in which each
    field the input gives holds the given value and each field the input
    does not give holds what it held; no other row changes.  With only
    [status] given as "closed" the title and description stay and the
    status is "closed"; with no field given the row, and the database, stay
    as they were. *)
Theorem update_applies_given_fields_only
  (D : Database) (ticket_id : Z) (row : Row) (ticket : TicketUpdate.t) :
  tickets D !! ticket_id = Some row ->
  exists r db' row',
    ticket_service.update_ticket ticket_id ticket (SessionLocal D) =
      (Return (Some r), db') /\
    heap db' !! r =
      Some (Ticket.mk (PyInt ticket_id) (row_title row') (row_description row')
              (row_status row')) /\
    tickets (close db') !! ticket_id = Some row' /\
    (forall o, TicketUpdate.title ticket = Some o ->
       row_title row' = TicketUpdate.to_value o) /\
    (forall o, TicketUpdate.description ticket = Some o ->
       row_description row' = TicketUpdate.to_value o) /\
    (forall o, TicketUpdate.status ticket = Some o ->
       row_status row' = TicketUpdate.to_value o) /\
    (TicketUpdate.title ticket = None -> row_title row' = row_title row) /\
    (TicketUpdate.description ticket = None ->
       row_description row' = row_description row) /\
    (TicketUpdate.status ticket = None -> row_status row' = row_status row) /\
    (forall k, k <> ticket_id -> tickets (close db') !! k = tickets D !! k) /\
    last_id (close db') = last_id D /\
    (ticket = TicketUpdate.mk None None (Some (Some "closed")) ->
       row' = mkRow (row_title row) (row_description row) (PyStr "closed")) /\
    (ticket = TicketUpdate.mk None None None -> row' = row /\ close db' = D) /\
    TicketUpdate.model_validate close_it =
      inl (TicketUpdate.mk None None (Some (Some "closed"))) /\
    TicketUpdate.model_validate (PyDict []) = inl (TicketUpdate.mk None None None).
Proof.
  intros Hrow. exists 0%nat. eexists. exists (updated_row ticket row).
  split; [by apply update_ticket_run|].
  split; [reflexivity|].
  split; [apply lookup_insert_eq|].
  do 3 (split; [intros o Ho; cbn; by rewrite Ho|]).
  do 3 (split; [intros Ho; cbn; by rewrite Ho|]).
  split; [intros k Hk; cbn; by rewrite lookup_insert_ne|].
  split; [reflexivity|].
  split; [by intros ->|].
  split; [|done].
  intros ->. destruct row as [rt rd rs], D as [tbl n]. cbn in *.
  split; [reflexivity|]. unfold updated_database, updated_row. cbn.
  by rewrite insert_id.
Qed.

Lemma update_applies_given_fields_only_witness :
  tickets one_ticket !! 1 = Some (mkRow (PyStr "Bug") (PyStr "Fix crash") (PyStr "open")) /\
  exists r db' row',
    ticket_service.update_ticket 1 (TicketUpdate.mk None None (Some (Some "closed")))
      (SessionLocal one_ticket) = (Return (Some r), db') /\
    heap db' !! r =
      Some (Ticket.mk (PyInt 1) (row_title row') (row_description row')
              (row_status row')) /\
    tickets (close db') !! 1 = Some row' /\
    row' = mkRow (PyStr "Bug") (PyStr "Fix crash") (PyStr "closed").
Proof.
  split; [reflexivity|].
  destruct (update_applies_given_fields_only one_ticket 1
              (mkRow (PyStr "Bug") (PyStr "Fix crash") (PyStr "open"))
              (TicketUpdate.mk None None (Some (Some "closed"))) eq_refl)
    as (r & db' & row' & Hrun & Hobj & Hrow' & _ & _ & _ & _ & _ & _ & _ & _ & Hclosed & _).
  exists r, db', row'. repeat split; try assumption.
  exact (Hclosed eq_refl).
Defined.

(** C3: for every id that is not in the store, [get_ticket] returns the
    not-found signal [None] and raises nothing, and the GET, PUT (for every
    update input) and DELETE routes answer 404 with the body
    [{"detail": "Ticket not found"}], leaving the store as it was. *)
Theorem absent_id_is_404 (D : Database) (ticket_id : Z) (ticket : TicketUpdate.t) :
  tickets D !! ticket_id = None ->
  let ticket_not_found :=
    mkResponse 404 (PyDict [("detail", PyStr "Ticket not found")]) in
  ticket_service.get_ticket ticket_id (SessionLocal D) = (Return None, SessionLocal D) /\
  route_get ticket_id D = (ticket_not_found, D) /\
  route_update ticket_id ticket D = (ticket_not_found, D) /\
  route_delete ticket_id D = (ticket_not_found, D) /\
  app (GET_ticket ticket_id) D = (ticket_not_found, D) /\
  (forall body, TicketUpdate.model_validate body = inl ticket ->
     app (PUT_ticket ticket_id body) D = (ticket_not_found, D)) /\
  app (DELETE_ticket ticket_id) D = (ticket_not_found, D).
Proof.
  intros Hrow nf.
  split; [by apply get_ticket_missing|].
  split; [by apply route_get_404|].
  split; [by apply route_update_404|].
  split; [by apply route_delete_404|].
  split; [by apply route_get_404|].
  split; [|by apply route_delete_404].
  intros body Hbody. unfold app. rewrite Hbody. by apply route_update_404.
Qed.

Lemma absent_id_is_404_witness :
  tickets one_ticket !! 999 = None /\
  route_update 999 (TicketUpdate.mk None None (Some (Some "closed"))) one_ticket =
    (mkResponse 404 (PyDict [("detail", PyStr "Ticket not found")]), one_ticket).
Proof.
  split; [reflexivity|].
  apply (absent_id_is_404 one_ticket 999
           (TicketUpdate.mk None None (Some (Some "closed")))).
  reflexivity.
Defined.

(** C4, evaluated: from the empty store, creating the ticket of the tests
    and then sending [PUT /tickets/1] with the body [{"status": null}]
    leaves a stored ticket whose status is null.  The PUT itself is
    answered 500, after the null was committed. *)
Theorem null_update_breaks_non_null :
  all_non_null empty_database /\
  all_non_null (state_after [POST_tickets payload]) /\
  map status_code
    (run [POST_tickets payload; PUT_ticket 1 (PyDict [("status", PyNone)])]
       empty_database).1 = [201; 500] /\
  tickets (state_after
             [POST_tickets payload; PUT_ticket 1 (PyDict [("status", PyNone)])]) !! 1 =
    Some (mkRow (PyStr "Bug") (PyStr "Fix crash") PyNone) /\
  ~ all_non_null
      (state_after [POST_tickets payload; PUT_ticket 1 (PyDict [("status", PyNone)])]).
Proof.
  assert (H0 : all_non_null empty_database).
  { intros k row Hrow. cbn in Hrow. by rewrite lookup_empty in Hrow. }
  assert (H2 : tickets (state_after
             [POST_tickets payload; PUT_ticket 1 (PyDict [("status", PyNone)])]) !! 1 =
    Some (mkRow (PyStr "Bug") (PyStr "Fix crash") PyNone)) by reflexivity.
  split; [exact H0|]. split; [|split; [reflexivity|split; [exact H2|]]].
  - apply (non_null_preserved (POST_tickets payload) empty_database);
      [reflexivity | exact H0 | by intros []].
  - intros Hall. destruct (Hall _ _ H2) as (_ & _ & Hs). by apply Hs.
Qed.

(** C5: for every id in the store, [delete_ticket] returns the instance
    with the field values the row had just before, the row is gone from the
    committed table and no other row changed; after that, [get_ticket] on
    the same id returns the not-found signal and the GET route answers
    404. *)
Theorem delete_removes_and_returns (D : Database) (ticket_id : Z) (row : Row) :
  tickets D !! ticket_id = Some row ->
  exists r db',
    ticket_service.delete_ticket ticket_id (SessionLocal D) = (Return (Some r), db') /\
    heap db' !! r =
      Some (Ticket.mk (PyInt ticket_id) (row_title row) (row_description row)
              (row_status row)) /\
    tickets (close db') !! ticket_id = None /\
    (forall k, k <> ticket_id -> tickets (close db') !! k = tickets D !! k) /\
    (app (DELETE_ticket ticket_id) D).2 = close db' /\
    ticket_service.get_ticket ticket_id (SessionLocal (close db')) =
      (Return None, SessionLocal (close db')) /\
    app (GET_ticket ticket_id) (close db') = (not_found, close db').
Proof.
  intros Hrow. eexists _, _.
  split; [by apply delete_ticket_run|].
  split; [reflexivity|].
  assert (Hgone : tickets (deleted_database ticket_id D) !! ticket_id = None)
    by apply lookup_delete_eq.
  split; [exact Hgone|].
  split; [intros k Hk; cbn; by rewrite lookup_delete_ne|].
  split; [unfold app; by rewrite (route_delete_run _ _ _ Hrow)|].
  split; [by apply get_ticket_missing | by apply route_get_404].
Qed.

Lemma delete_removes_and_returns_witness :
  tickets one_ticket !! 1 = Some (mkRow (PyStr "Bug") (PyStr "Fix crash") (PyStr "open")) /\
  exists r db',
    ticket_service.delete_ticket 1 (SessionLocal one_ticket) = (Return (Some r), db') /\
    heap db' !! r =
      Some (Ticket.mk (PyInt 1) (PyStr "Bug") (PyStr "Fix crash") (PyStr "open")) /\
    tickets (close db') !! 1 = None /\
    (forall k, k <> 1 -> tickets (close db') !! k = tickets one_ticket !! k) /\
    (app (DELETE_ticket 1) one_ticket).2 = close db' /\
    ticket_service.get_ticket 1 (SessionLocal (close db')) =
      (Return None, SessionLocal (close db')) /\
    app (GET_ticket 1) (close db') = (not_found, close db').
Proof.
  split; [reflexivity|].
  apply (delete_removes_and_returns one_ticket 1
           (mkRow (PyStr "Bug") (PyStr "Fix crash") (PyStr "open"))).
  reflexivity.
Defined.

(** C6: creating a ticket and then fetching it, in a later request, by the
    id that creation returned yields a ticket with the same title,
    description and status (and id) as the created one, and the GET route
    answers 200 with them. *)
Theorem create_then_get (reqs : list Request) (ticket : TicketCreate.t) :
  let D := state_after reqs in
  exists r db1 created new_id r' db2 fetched,
    ticket_service.create_ticket ticket (SessionLocal D) = (Return r, db1) /\
    heap db1 !! r = Some created /\
    Ticket.id created = PyInt new_id /\
    ticket_service.get_ticket new_id (SessionLocal (close db1)) = (Return (Some r'), db2) /\
    heap db2 !! r' = Some fetched /\
    Ticket.title fetched = Ticket.title created /\
    Ticket.description fetched = Ticket.description created /\
    Ticket.status fetched = Ticket.status created /\
    Ticket.id fetched = Ticket.id created /\
    Ticket.title created = PyStr (TicketCreate.title ticket) /\
    Ticket.description created = PyStr (TicketCreate.description ticket) /\
    Ticket.status created = PyStr "open" /\
    app (GET_ticket new_id) (close db1) =
      (mkResponse 200
         (PyDict [("title", PyStr (TicketCreate.title ticket));
                  ("description", PyStr (TicketCreate.description ticket));
                  ("id", PyInt new_id); ("status", PyStr "open")]),
       close db1).
Proof.
  intros D.
  pose proof (state_after_fresh reqs) as Hfresh. fold D in Hfresh.
  assert (Hrow : tickets (created_database ticket D) !! (last_id D + 1) =
                 Some (created_row ticket)) by apply lookup_insert_eq.
  eexists _, _, _, _, _, _, _.
  split; [by apply create_ticket_run|].
  split; [reflexivity|]. split; [reflexivity|].
  split; [by apply get_ticket_found|].
  split; [reflexivity|].
  do 7 (split; [reflexivity|]).
  unfold app, close. cbn [bind]. by rewrite (route_get_run _ _ _ Hrow).
Qed.

(** C7: a creation request whose body lacks [title] or [description] fails
    validation with a "missing" error for the field, is answered 422
    without the handler being run, and leaves the store as it was. *)
Theorem create_requires_title_and_description (D : Database) (d : list (string * value)) :
  dict_get "title" d = None \/ dict_get "description" d = None ->
  exists es,
    TicketCreate.model_validate (PyDict d) = inr es /\
    (dict_get "title" d = None -> missing "title" (PyDict d) ∈ es) /\
    (dict_get "description" d = None -> missing "description" (PyDict d) ∈ es) /\
    app (POST_tickets (PyDict d)) D = (request_validation_error es, D) /\
    status_code (app (POST_tickets (PyDict d)) D).1 = 422 /\
    (app (POST_tickets (PyDict d)) D).2 = D.
Proof.
  intros Hmissing.
  destruct (model_validate_missing d Hmissing) as (es & Hes & Htitle & Hdescription).
  exists es. unfold app. rewrite Hes. done.
Qed.

Lemma create_requires_title_and_description_witness :
  (dict_get "title" [("description", PyStr "Fix crash")] = None \/
   dict_get "description" [("description", PyStr "Fix crash")] = None) /\
  exists es,
    TicketCreate.model_validate (PyDict [("description", PyStr "Fix crash")]) = inr es /\
    (dict_get "title" [("description", PyStr "Fix crash")] = None ->
       missing "title" (PyDict [("description", PyStr "Fix crash")]) ∈ es) /\
    (dict_get "description" [("description", PyStr "Fix crash")] = None ->
       missing "description" (PyDict [("description", PyStr "Fix crash")]) ∈ es) /\
    app (POST_tickets (PyDict [("description", PyStr "Fix crash")])) one_ticket =
      (request_validation_error es, one_ticket) /\
    status_code (app (POST_tickets (PyDict [("description", PyStr "Fix crash")])) one_ticket).1 = 422 /\
    (app (POST_tickets (PyDict [("description", PyStr "Fix crash")])) one_ticket).2 = one_ticket.
Proof.
  split; [left; reflexivity|].
  apply (create_requires_title_and_description one_ticket
           [("description", PyStr "Fix crash")]).
  left; reflexivity.
Defined.

(** C8: a ticket keeps its id: the update schema has no field [id], so the
    loop of [update_ticket] never sets it, the instance an update returns
    carries the id it was looked up by and the set of ids in the store is
    the same after an update; after any request other than the deletion of
    that id the ticket is still stored under it.  An id that some ticket
    once had is never given to a ticket created later, whatever requests,
    deletions included, came in between. *)
Theorem id_is_stable_and_never_reused (reqs1 reqs2 : list Request) (k : Z) :
  is_Some (tickets (state_after reqs1) !! k) ->
  (forall (ticket : TicketUpdate.t) (fv : string * value),
     fv ∈ TicketUpdate.model_dump_exclude_unset ticket -> fv.1 <> "id") /\
  (forall ticket : TicketUpdate.t, exists r db' obj,
     ticket_service.update_ticket k ticket (SessionLocal (state_after reqs1)) =
       (Return (Some r), db') /\
     heap db' !! r = Some obj /\
     Ticket.id obj = PyInt k /\
     (forall k', is_Some (tickets (close db') !! k') <->
                 is_Some (tickets (state_after reqs1) !! k'))) /\
  (forall req, req <> DELETE_ticket k ->
     is_Some (tickets (state_after (reqs1 ++ [req])) !! k)) /\
  (forall ticket : TicketCreate.t, exists r db' obj new_id,
     ticket_service.create_ticket ticket
       (SessionLocal (state_after (reqs1 ++ reqs2))) = (Return r, db') /\
     heap db' !! r = Some obj /\
     Ticket.id obj = PyInt new_id /\
     new_id <> k).
Proof.
  intros Hk. split; [apply update_field_names|].
  split; [|split].
  - intros ticket. destruct Hk as [row Hrow]. eexists _, _, _.
    split; [by apply update_ticket_run|].
    split; [reflexivity|]. split; [reflexivity|].
    intros k'. cbn. rewrite lookup_insert. case_decide; [|done].
    subst. rewrite Hrow. split; eauto.
  - intros req Hreq. rewrite state_after_snoc.
    rewrite app_database by apply state_after_fresh.
    by apply step_keeps_id.
  - intros ticket. eexists _, _, _, _.
    split; [apply create_ticket_run, state_after_fresh|].
    split; [reflexivity|]. split; [reflexivity|].
    pose proof (state_after_ids_bounded reqs1 k Hk) as Hbound.
    pose proof (run_last_id reqs2 _ (state_after_ids_bounded reqs1)) as Hmono.
    rewrite state_after_app. lia.
Qed.

Lemma id_is_stable_and_never_reused_witness :
  is_Some (tickets (state_after [POST_tickets payload]) !! 1) /\
  exists r db' obj new_id,
    ticket_service.create_ticket (TicketCreate.mk "Bug" "Fix crash")
      (SessionLocal (state_after ([POST_tickets payload] ++ [DELETE_ticket 1]))) =
      (Return r, db') /\
    heap db' !! r = Some obj /\
    Ticket.id obj = PyInt new_id /\
    new_id <> 1.
Proof.
  assert (H : is_Some (tickets (state_after [POST_tickets payload]) !! 1))
    by (eexists; reflexivity).
  split; [exact H|].
  apply (id_is_stable_and_never_reused [POST_tickets payload] [DELETE_ticket 1] 1 H).
Defined.

(** C9, evaluated: the ticket of the tests is deleted with status 200 and
    the entity in the body; once its status has been set to null by an
    update, [DELETE /tickets/1] finds it, removes it, and is answered 500
    with no entity. *)
Theorem delete_of_null_ticket_is_500 :
  app (DELETE_ticket 1) (state_after [POST_tickets payload]) =
    (mkResponse 200
       (PyDict [("title", PyStr "Bug"); ("description", PyStr "Fix crash");
                ("id", PyInt 1); ("status", PyStr "open")]),
     deleted_database 1 (state_after [POST_tickets payload])) /\
  let D := state_after
             [POST_tickets payload; PUT_ticket 1 (PyDict [("status", PyNone)])] in
  tickets D !! 1 = Some (mkRow (PyStr "Bug") (PyStr "Fix crash") PyNone) /\
  app (DELETE_ticket 1) D =
    (mkResponse 500 (PyStr "Internal Server Error"), deleted_database 1 D) /\
  tickets (deleted_database 1 D) !! 1 = None.
Proof.
  split; [by apply route_delete_200|].
  intros D.
  assert (Hrow : tickets D !! 1 = Some (mkRow (PyStr "Bug") (PyStr "Fix crash") PyNone))
    by reflexivity.
  split; [exact Hrow|]. split; [|apply lookup_delete_eq].
  unfold app. by rewrite (route_delete_run _ _ _ Hrow).
Qed.

(** C10: for every ticket in the store, an update that gives a field
    explicitly as null is applied like any given value: the stored field
    becomes null, while a field that is not given keeps its value.  The
    body [{"status": null}] validates to an update with [status] given as
    [None], which the dump of the given fields keeps, and after the PUT
    the stored status is null and title and description are untouched. *)
Theorem explicit_null_is_applied
  (D : Database) (ticket_id : Z) (row : Row) (ticket : TicketUpdate.t) :
  tickets D !! ticket_id = Some row ->
  exists r db' row',
    ticket_service.update_ticket ticket_id ticket (SessionLocal D) =
      (Return (Some r), db') /\
    tickets (close db') !! ticket_id = Some row' /\
    (TicketUpdate.title ticket = Some None -> row_title row' = PyNone) /\
    (TicketUpdate.description ticket = Some None -> row_description row' = PyNone) /\
    (TicketUpdate.status ticket = Some None -> row_status row' = PyNone) /\
    (TicketUpdate.title ticket = None -> row_title row' = row_title row) /\
    (TicketUpdate.description ticket = None ->
       row_description row' = row_description row) /\
    (TicketUpdate.status ticket = None -> row_status row' = row_status row) /\
    TicketUpdate.model_validate (PyDict [("status", PyNone)]) =
      inl (TicketUpdate.mk None None (Some None)) /\
    TicketUpdate.model_dump_exclude_unset (TicketUpdate.mk None None (Some None)) =
      [("status", PyNone)] /\
    TicketUpdate.model_dump_exclude_unset (TicketUpdate.mk None None None) = [] /\
    tickets (app (PUT_ticket ticket_id (PyDict [("status", PyNone)])) D).2 !! ticket_id =
      Some (mkRow (row_title row) (row_description row) PyNone).
Proof.
  intros Hrow. exists 0%nat. eexists. exists (updated_row ticket row).
  split; [by apply update_ticket_run|].
  split; [apply lookup_insert_eq|].
  do 6 (split; [intros Ho; cbn; by rewrite Ho|]).
  do 3 (split; [reflexivity|]).
  change (app (PUT_ticket ticket_id (PyDict [("status", PyNone)])) D)
    with (route_update ticket_id (TicketUpdate.mk None None (Some None)) D).
  rewrite (route_update_run _ _ _ _ Hrow). apply lookup_insert_eq.
Qed.

Lemma explicit_null_is_applied_witness :
  tickets one_ticket !! 1 = Some (mkRow (PyStr "Bug") (PyStr "Fix crash") (PyStr "open")) /\
  exists r db' row',
    ticket_service.update_ticket 1 (TicketUpdate.mk None None (Some None))
      (SessionLocal one_ticket) = (Return (Some r), db') /\
    tickets (close db') !! 1 = Some row' /\
    row_status row' = PyNone.
Proof.
  split; [reflexivity|].
  destruct (explicit_null_is_applied one_ticket 1
              (mkRow (PyStr "Bug") (PyStr "Fix crash") (PyStr "open"))
              (TicketUpdate.mk None None (Some None)) eq_refl)
    as (r & db' & row' & Hrun & Hrow' & _ & _ & Hstatus & _).
  exists r, db', row'. repeat split; try assumption.
  exact (Hstatus eq_refl).
Defined.

(** * Further properties *)

(** ** Listing *)

Lemma identity_get_app pk m1 m2 :
  identity_get pk (m1 ++ m2) =
  match identity_get pk m1 with
  | Some r => Some r
  | None => identity_get pk m2
  end.
Proof.
  induction m1 as [|[k r] m1 IH]; [done|].
  cbn. by destruct (k =? pk).
Qed.

Lemma map_each_load (rows : list (Z * Row)) B T h nw im del :
  NoDup rows.*1 ->
  (forall k, k ∈ rows.*1 -> identity_get k im = None) ->
  map_each rows (fun kr => load kr.1 kr.2) (mkSession B T h nw im del) =
  (Return (seq (length h) (length rows)),
   mkSession B T (h ++ map (fun kr => instance_of kr.1 kr.2) rows) nw
     (im ++ zip rows.*1 (seq (length h) (length rows))) del).
Proof.
  revert h im. induction rows as [|[k row] rows IH]; intros h im Hnd Him.
  - cbn. by rewrite !app_nil_r.
  - rewrite fmap_cons in Hnd, Him. apply NoDup_cons in Hnd as [Hk Hnd].
    assert (Hfree : identity_get k im = None) by (apply Him; left).
    assert (Hrest : forall k', k' ∈ rows.*1 ->
              identity_get k' (im ++ [(k, length h)]) = None).
    { intros k' Hk'. rewrite identity_get_app, (Him k') by (by right).
      cbn. destruct (k =? k') eqn:E; [|done].
      apply Z.eqb_eq in E. by subst. }
    cbn [map_each]. rewrite bind_eq. unfold load at 1.
    rewrite bind_eq. unfold gets at 1. cbn [identity_map fst snd].
    rewrite Hfree, bind_eq. unfold instantiate, set_heap. cbn [heap bind transaction new identity_map deleted].
    rewrite bind_eq. unfold modify, set_identity_map.
    cbn [heap bind transaction new identity_map deleted].
    rewrite ret_eq. cbv beta iota. rewrite bind_eq, (IH _ _ Hnd Hrest).
    cbv beta iota. rewrite ret_eq.
    rewrite length_app, fmap_cons. cbn [length zip zip_with seq map fst].
    by rewrite Nat.add_1_r, <- !app_assoc.
Qed.

Lemma map_each_serialize (objs pre : list Ticket.t) db :
  heap db = pre ++ objs ->
  map_each (seq (length pre) (length objs)) serialize db =
  (Return (map (fun obj => TicketOut.model_dump <$> TicketOut.model_validate obj) objs), db).
Proof.
  revert pre. induction objs as [|obj objs IH]; intros pre Hheap; [done|].
  cbn [length seq map_each map]. rewrite bind_eq.
  rewrite (serialize_eq _ _ obj).
  - rewrite bind_eq.
    replace (S (length pre)) with (length (pre ++ [obj]))
      by (rewrite length_app; cbn; lia).
    rewrite (IH (pre ++ [obj])) by (by rewrite <- app_assoc).
    reflexivity.
  - rewrite Hheap. by apply list_lookup_middle.
Qed.

Lemma list_all_run D :
  (ticket_routes.list_all ≫= serialize_list) (SessionLocal D) =
  (Return (PyList <$> sequence_options (map entity (map_to_list (tickets D)))),
   mkSession D D (map (fun kr => instance_of kr.1 kr.2) (map_to_list (tickets D))) []
     (zip (map_to_list (tickets D)).*1 (seq 0 (length (map_to_list (tickets D))))) []).
Proof.
  unfold ticket_routes.list_all, ticket_service.get_all_tickets, query_all, SessionLocal.
  rewrite !bind_eq. unfold gets at 1. cbn [transaction]. cbv beta iota.
  rewrite map_each_load; [| apply NoDup_fst_map_to_list | done].
  cbv beta iota. unfold serialize_list. rewrite bind_eq.
  cbn [length app].
  rewrite <- (length_map (fun kr : Z * Row => instance_of kr.1 kr.2)).
  rewrite (map_each_serialize _ []) by done.
  cbv beta iota. rewrite ret_eq, map_map. reflexivity.
Qed.

Lemma route_list_all_run D :
  route_list_all D = (list_response (map_to_list (tickets D)), D).
Proof.
  unfold route_list_all, endpoint. rewrite list_all_run.
  unfold list_response. cbn [fst snd close bind].
  by destruct (sequence_options _).
Qed.

Lemma row_is_text_inv row :
  row_is_text row = true ->
  exists ti de st, row = mkRow (PyStr ti) (PyStr de) (PyStr st).
Proof.
  destruct row as [[] [] []]; cbn; try discriminate. eauto.
Qed.

Lemma entity_text k row :
  row_is_text row = true -> is_Some (entity (k, row)).
Proof.
  intros (ti & de & st & ->)%row_is_text_inv. by eexists.
Qed.

Lemma entity_not_text k row :
  row_is_text row = false -> entity (k, row) = None.
Proof. by destruct row as [[] [] []]. Qed.

Lemma sequence_options_Some {A} (l : list (option A)) :
  Forall is_Some l ->
  exists vs, sequence_options l = Some vs /\ map Some vs = l.
Proof.
  induction 1 as [|o l [a ->] _ (vs & Hvs & <-)]; [by exists []|].
  exists (a :: vs). cbn. by rewrite Hvs.
Qed.

Lemma sequence_options_None {A} (l : list (option A)) :
  None ∈ l -> sequence_options l = None.
Proof.
  induction l as [|o l IH]; intros Hin; [by apply elem_of_nil in Hin|].
  apply elem_of_cons in Hin as [<-|Hin]; [done|].
  cbn. rewrite (IH Hin). by destruct o.
Qed.

Lemma read_unchanged (req : Request) (D : Database) :
  is_read req = true -> (app req D).2 = D.
Proof.
  destruct req as [body| |ticket_id|ticket_id body|ticket_id]; try discriminate;
    intros _.
  - apply route_list_all_database.
  - unfold app. destruct (tickets D !! ticket_id) eqn:Hrow.
    + by rewrite (route_get_run _ _ _ Hrow).
    + by rewrite route_get_404.
Qed.

(** X1: the two GET routes never change the database, whatever it holds
    and whatever they answer; so the GET requests of a run can be left out:
    the database after the run is the database after its other requests. *)
Theorem reads_leave_store_unchanged
  (D : Database) (ticket_id : Z) (reqs : list Request) :
  (app GET_tickets D).2 = D /\
  (app (GET_ticket ticket_id) D).2 = D /\
  (run (List.filter (fun req => negb (is_read req)) reqs) D).2 = (run reqs D).2.
Proof.
  split; [by apply read_unchanged|]. split; [by apply read_unchanged|].
  revert D. induction reqs as [|req reqs IH]; intros D; [done|].
  cbn [List.filter run snd].
  destruct (is_read req) eqn:Hread; cbn [negb run snd].
  - by rewrite IH, read_unchanged.
  - apply IH.
Qed.

(** X2: when every stored row holds three strings, the listing route
    answers 200 with a list that has one entry per stored ticket: as many
    entries as rows, and a value is listed exactly when it is the
    serialized ticket of a stored row.  On the empty store the list is
    empty. *)
Theorem listing_returns_every_ticket (D : Database) :
  all_text D = true ->
  exists vs,
    app GET_tickets D = (mkResponse 200 (PyList vs), D) /\
    length vs = size (tickets D) /\
    (forall v, v ∈ vs <->
       exists k row, tickets D !! k = Some row /\ entity (k, row) = Some v) /\
    app GET_tickets empty_database = (mkResponse 200 (PyList []), empty_database).
Proof.
  intros Hall. unfold all_text in Hall. rewrite forallb_forall in Hall.
  destruct (sequence_options_Some (map entity (map_to_list (tickets D))))
    as (vs & Hvs & Hmap).
  { apply Forall_forall. intros o Ho.
    apply list_elem_of_In, in_map_iff in Ho as ([k row] & <- & Hin).
    apply entity_text, (Hall _ Hin). }
  exists vs. split; [|split; [|split]].
  - unfold app. rewrite route_list_all_run. unfold list_response. by rewrite Hvs.
  - rewrite <- length_map_to_list, <- (length_map entity), <- Hmap.
    by rewrite length_map.
  - intros v. split.
    + intros Hv. assert (Hin : Some v ∈ map entity (map_to_list (tickets D))).
      { rewrite <- Hmap. apply list_elem_of_In, in_map, list_elem_of_In, Hv. }
      apply list_elem_of_In, in_map_iff in Hin as ([k row] & He & Hin).
      exists k, row. split; [|done].
      by apply elem_of_map_to_list, list_elem_of_In.
    + intros (k & row & Hrow & He).
      assert (Hin : Some v ∈ map Some vs).
      { rewrite Hmap, <- He. apply list_elem_of_In, in_map, list_elem_of_In.
        by apply elem_of_map_to_list. }
      apply list_elem_of_In, in_map_iff in Hin as (v' & [= ->] & Hin).
      by apply list_elem_of_In.
  - reflexivity.
Qed.

Lemma listing_returns_every_ticket_witness :
  all_text one_ticket = true /\
  exists vs,
    app GET_tickets one_ticket = (mkResponse 200 (PyList vs), one_ticket) /\
    length vs = size (tickets one_ticket).
Proof.
  split; [reflexivity|].
  destruct (listing_returns_every_ticket one_ticket eq_refl) as (vs & H1 & H2 & _).
  by exists vs.
Defined.

(** X3: one stored row that the output schema rejects (a field that is not
    a string, such as a null status) makes the whole listing fail: the
    route answers 500 with no list, and the database is left as it is. *)
Theorem listing_fails_on_one_bad_row (D : Database) (k : Z) (row : Row) :
  tickets D !! k = Some row ->
  row_is_text row = false ->
  app GET_tickets D = (mkResponse 500 (PyStr "Internal Server Error"), D).
Proof.
  intros Hrow Hbad. unfold app. rewrite route_list_all_run. unfold list_response.
  rewrite sequence_options_None; [done|].
  rewrite <- (entity_not_text k row Hbad).
  apply list_elem_of_In, in_map, list_elem_of_In.
  by apply elem_of_map_to_list.
Qed.

Lemma listing_fails_on_one_bad_row_witness :
  tickets (mkDatabase {[1 := mkRow (PyStr "Bug") (PyStr "Fix crash") PyNone]} 1) !! 1 =
    Some (mkRow (PyStr "Bug") (PyStr "Fix crash") PyNone) /\
  row_is_text (mkRow (PyStr "Bug") (PyStr "Fix crash") PyNone) = false /\
  app GET_tickets (mkDatabase {[1 := mkRow (PyStr "Bug") (PyStr "Fix crash") PyNone]} 1) =
    (mkResponse 500 (PyStr "Internal Server Error"),
     mkDatabase {[1 := mkRow (PyStr "Bug") (PyStr "Fix crash") PyNone]} 1).
Proof.
  split; [reflexivity|]. split; [reflexivity|].
  apply (listing_fails_on_one_bad_row _ 1 (mkRow (PyStr "Bug") (PyStr "Fix crash") PyNone));
    reflexivity.
Defined.

(** X4: for a stored ticket the GET route never changes the database; it
    answers 200 with the ticket's id, title, description and status when
    the three fields are strings, and 500 when one of them is not. *)
Theorem get_returns_stored_ticket (D : Database) (ticket_id : Z) (row : Row) :
  tickets D !! ticket_id = Some row ->
  (forall ti de st, row = mkRow (PyStr ti) (PyStr de) (PyStr st) ->
     app (GET_ticket ticket_id) D =
       (mkResponse 200
          (PyDict [("title", PyStr ti); ("description", PyStr de);
                   ("id", PyInt ticket_id); ("status", PyStr st)]), D)) /\
  (row_is_text row = false ->
     app (GET_ticket ticket_id) D =
       (mkResponse 500 (PyStr "Internal Server Error"), D)).
Proof.
  intros Hrow. unfold app. rewrite (route_get_run _ _ _ Hrow). split.
  - by intros ti de st ->.
  - intros Hbad. by destruct row as [[] [] []].
Qed.

Lemma get_returns_stored_ticket_witness :
  tickets one_ticket !! 1 = Some (mkRow (PyStr "Bug") (PyStr "Fix crash") (PyStr "open")) /\
  app (GET_ticket 1) one_ticket =
    (mkResponse 200
       (PyDict [("title", PyStr "Bug"); ("description", PyStr "Fix crash");
                ("id", PyInt 1); ("status", PyStr "open")]), one_ticket).
Proof.
  split; [reflexivity|].
  by apply (get_returns_stored_ticket one_ticket 1 _ eq_refl).
Defined.

(** ** Validation *)

Lemma dict_get_cons_ne k name v d :
  name <> k -> dict_get k ((name, v) :: d) = dict_get k d.
Proof. intros Hne. cbn. by apply String.eqb_neq in Hne as ->. Qed.

Lemma required_str_inl name d s :
  required_str name d = inl s <-> dict_get name d = Some (PyStr s).
Proof.
  unfold required_str. destruct (dict_get name d) as [[]|]; split; congruence.
Qed.

Lemma optional_str_inl name d f :
  optional_str name d = inl f <-> given_as d name f.
Proof.
  unfold optional_str, given_as.
  destruct (dict_get name d) as [[]|], f as [[]|]; cbn; split; congruence.
Qed.

Lemma optional_str_inr name d v :
  dict_get name d = Some v -> is_str_or_none v = false ->
  optional_str name d = inr (string_type name v).
Proof. intros Hv Hbad. unfold optional_str. rewrite Hv. by destruct v. Qed.

Lemma create_accepted_iff (body : value) (ticket : TicketCreate.t) :
  TicketCreate.model_validate body = inl ticket <->
  exists d, body = PyDict d /\
    dict_get "title" d = Some (PyStr (TicketCreate.title ticket)) /\
    dict_get "description" d = Some (PyStr (TicketCreate.description ticket)).
Proof.
  split.
  - destruct body; try discriminate. cbn.
    destruct (required_str "title" d) as [ti|] eqn:Ht;
      destruct (required_str "description" d) as [de|] eqn:Hd; try discriminate.
    intros [= <-]. exists d.
    by apply required_str_inl in Ht, Hd.
  - intros (d & -> & Ht & Hd). cbn.
    apply required_str_inl in Ht, Hd. rewrite Ht, Hd. by destruct ticket.
Qed.

(** X5: the creation schema accepts a body exactly when it is an object
    whose [title] and [description] are strings, and then the validated
    input carries those two strings; whatever else the object holds plays
    no part.  Every other body is answered 422 and leaves the database as
    it is. *)
Theorem create_body_accepted_iff (body : value) (ticket : TicketCreate.t) :
  (TicketCreate.model_validate body = inl ticket <->
   exists d, body = PyDict d /\
     dict_get "title" d = Some (PyStr (TicketCreate.title ticket)) /\
     dict_get "description" d = Some (PyStr (TicketCreate.description ticket))) /\
  (forall D es, TicketCreate.model_validate body = inr es ->
     app (POST_tickets body) D = (request_validation_error es, D) /\
     status_code (app (POST_tickets body) D).1 = 422).
Proof.
  split; [apply create_accepted_iff|].
  intros D es Hes. unfold app. by rewrite Hes.
Qed.

(** X6: the update schema accepts a body exactly when it is an object in
    which each of [title], [description] and [status] is absent, null or a
    string; the validated input then records, field by field, which of the
    three it was. *)
Theorem update_body_accepted_iff (body : value) (ticket : TicketUpdate.t) :
  TicketUpdate.model_validate body = inl ticket <->
  exists d, body = PyDict d /\
    given_as d "title" (TicketUpdate.title ticket) /\
    given_as d "description" (TicketUpdate.description ticket) /\
    given_as d "status" (TicketUpdate.status ticket).
Proof.
  split.
  - destruct body; try discriminate. cbn.
    destruct (optional_str "title" d) as [ti|] eqn:Ht;
      destruct (optional_str "description" d) as [de|] eqn:Hd;
      destruct (optional_str "status" d) as [st|] eqn:Hs; try discriminate.
    intros [= <-]. exists d.
    by apply optional_str_inl in Ht, Hd, Hs.
  - intros (d & -> & Ht & Hd & Hs). cbn.
    apply optional_str_inl in Ht, Hd, Hs. rewrite Ht, Hd, Hs. by destruct ticket.
Qed.

(** X7: an update body in which [title], [description] or [status] is
    neither null nor a string is answered 422 before the ticket is looked
    up: the answer is 422 whether or not the id exists, and the database is
    left as it is. *)
Theorem update_rejects_bad_field_before_lookup
  (D : Database) (ticket_id : Z) (d : list (string * value)) (name : string) (v : value) :
  name ∈ ["title"; "description"; "status"] ->
  dict_get name d = Some v ->
  is_str_or_none v = false ->
  status_code (app (PUT_ticket ticket_id (PyDict d)) D).1 = 422 /\
  (app (PUT_ticket ticket_id (PyDict d)) D).2 = D /\
  exists es, TicketUpdate.model_validate (PyDict d) = inr es /\ string_type name v ∈ es.
Proof.
  intros Hname Hv Hbad.
  pose proof (optional_str_inr name d v Hv Hbad) as Hopt.
  assert (Hes : exists es, TicketUpdate.model_validate (PyDict d) = inr es /\
                           string_type name v ∈ es).
  { cbn.
    repeat (apply elem_of_cons in Hname as [->|Hname]); [| | |by apply elem_of_nil in Hname].
    - rewrite Hopt.
      destruct (optional_str "description" d), (optional_str "status" d);
        eexists; (split; [reflexivity|]); cbn; repeat constructor.
    - rewrite Hopt.
      destruct (optional_str "title" d), (optional_str "status" d);
        eexists; (split; [reflexivity|]); cbn; repeat constructor.
    - rewrite Hopt.
      destruct (optional_str "title" d), (optional_str "description" d);
        eexists; (split; [reflexivity|]); cbn; repeat constructor. }
  destruct Hes as (es & Hes & Hin). unfold app. rewrite Hes.
  split; [done|]. split; [done|]. by exists es.
Qed.

Lemma update_rejects_bad_field_before_lookup_witness :
  ("title" ∈ ["title"; "description"; "status"]) /\
  dict_get "title" [("title", PyInt 5)] = Some (PyInt 5) /\
  is_str_or_none (PyInt 5) = false /\
  status_code (app (PUT_ticket 999 (PyDict [("title", PyInt 5)])) one_ticket).1 = 422 /\
  (app (PUT_ticket 999 (PyDict [("title", PyInt 5)])) one_ticket).2 = one_ticket.
Proof.
  assert (Hname : "title" ∈ ["title"; "description"; "status"]) by constructor.
  split; [exact Hname|]. split; [reflexivity|]. split; [reflexivity|].
  destruct (update_rejects_bad_field_before_lookup one_ticket 999
              [("title", PyInt 5)] "title" (PyInt 5) Hname eq_refl eq_refl)
    as (H1 & H2 & _).
  by split.
Defined.

(** X8: a key of the update body that the schema does not declare is
    ignored: with or without it the PUT gives the same answer and the same
    database.  A body cannot set the [id] of a ticket. *)
Theorem update_ignores_undeclared_fields
  (D : Database) (ticket_id : Z) (d : list (string * value)) (name : string) (v : value) :
  name ∉ ["title"; "description"; "status"] ->
  TicketUpdate.model_validate (PyDict ((name, v) :: d)) =
    TicketUpdate.model_validate (PyDict d) /\
  app (PUT_ticket ticket_id (PyDict ((name, v) :: d))) D =
    app (PUT_ticket ticket_id (PyDict d)) D.
Proof.
  intros Hname.
  assert (Hval : TicketUpdate.model_validate (PyDict ((name, v) :: d)) =
                 TicketUpdate.model_validate (PyDict d)).
  { unfold TicketUpdate.model_validate, optional_str.
    rewrite !dict_get_cons_ne; [done | | |];
      intros ->; apply Hname; repeat constructor. }
  split; [exact Hval|]. unfold app. by rewrite Hval.
Qed.

Lemma update_ignores_undeclared_fields_witness :
  ("id" ∉ ["title"; "description"; "status"]) /\
  app (PUT_ticket 1 (PyDict [("id", PyInt 99); ("status", PyStr "closed")])) one_ticket =
    app (PUT_ticket 1 (PyDict [("status", PyStr "closed")])) one_ticket.
Proof.
  assert (Hname : "id" ∉ ["title"; "description"; "status"]).
  { intros Hin. repeat (apply elem_of_cons in Hin as [Hin|Hin]; [discriminate|]).
    by apply elem_of_nil in Hin. }
  split; [exact Hname|].
  apply (update_ignores_undeclared_fields one_ticket 1 [("status", PyStr "closed")]
           "id" (PyInt 99) Hname).
Defined.

(** X9: what a creation body holds besides [title] and [description] is
    ignored: a body that is accepted stays accepted, with the same input,
    when another key is put in front, and the POST gives the same answer
    and database.  A [status] or an [id] sent at creation has no effect. *)
Theorem create_ignores_other_fields
  (D : Database) (d : list (string * value)) (ticket : TicketCreate.t)
  (name : string) (v : value) :
  name ∉ ["title"; "description"] ->
  TicketCreate.model_validate (PyDict d) = inl ticket ->
  TicketCreate.model_validate (PyDict ((name, v) :: d)) = inl ticket /\
  app (POST_tickets (PyDict ((name, v) :: d))) D = app (POST_tickets (PyDict d)) D.
Proof.
  intros Hname Hval.
  assert (Hval' : TicketCreate.model_validate (PyDict ((name, v) :: d)) = inl ticket).
  { apply create_accepted_iff in Hval as (d' & [= <-] & Ht & Hd).
    apply create_accepted_iff. exists ((name, v) :: d).
    split; [done|].
    rewrite !dict_get_cons_ne; [done | |];
      intros ->; apply Hname; repeat constructor. }
  split; [exact Hval'|]. unfold app. by rewrite Hval, Hval'.
Qed.

Lemma create_ignores_other_fields_witness :
  ("status" ∉ ["title"; "description"]) /\
  TicketCreate.model_validate payload = inl (TicketCreate.mk "Bug" "Fix crash") /\
  app (POST_tickets
         (PyDict [("status", PyStr "closed"); ("title", PyStr "Bug");
                  ("description", PyStr "Fix crash")])) one_ticket =
    app (POST_tickets payload) one_ticket.
Proof.
  assert (Hname : "status" ∉ ["title"; "description"]).
  { intros Hin. repeat (apply elem_of_cons in Hin as [Hin|Hin]; [discriminate|]).
    by apply elem_of_nil in Hin. }
  split; [exact Hname|]. split; [reflexivity|].
  apply (create_ignores_other_fields one_ticket
           [("title", PyStr "Bug"); ("description", PyStr "Fix crash")]
           (TicketCreate.mk "Bug" "Fix crash") "status" (PyStr "closed") Hname eq_refl).
Defined.

(** ** Requests in sequence *)

Lemma updated_row_merge u1 u2 row :
  updated_row u2 (updated_row u1 row) = updated_row (merge_updates u1 u2) row.
Proof. by destruct u1 as [[] [] []], u2 as [[] [] []]. Qed.

Lemma merge_updates_same u : merge_updates u u = u.
Proof. by destruct u as [[] [] []]. Qed.

Lemma updated_database_twice ticket_id row1 row2 D :
  updated_database ticket_id row2 (updated_database ticket_id row1 D) =
  updated_database ticket_id row2 D.
Proof. unfold updated_database. cbn. by rewrite insert_insert_eq. Qed.

Lemma response_of_status success obj :
  status_code (response_of success obj) = success \/
  status_code (response_of success obj) = 500.
Proof.
  unfold response_of.
  destruct (TicketOut.model_validate obj); [by left | by right].
Qed.

(** X10: two updates of one ticket, one after the other, give the answer
    and the database of the single update that carries, for each field,
    what the second update gives if it gives the field and what the first
    gives otherwise.  Sending the same update twice gives the answer and
    the database of sending it once. *)
Theorem updates_compose
  (D : Database) (ticket_id : Z) (row : Row) (u1 u2 : TicketUpdate.t) :
  tickets D !! ticket_id = Some row ->
  route_update ticket_id u2 (route_update ticket_id u1 D).2 =
    route_update ticket_id (merge_updates u1 u2) D /\
  route_update ticket_id u1 (route_update ticket_id u1 D).2 =
    route_update ticket_id u1 D.
Proof.
  intros Hrow.
  assert (Hgen : forall u v,
    route_update ticket_id v (route_update ticket_id u D).2 =
    route_update ticket_id (merge_updates u v) D).
  { intros u v. rewrite (route_update_run _ _ u _ Hrow). cbn [snd].
    rewrite (route_update_run _ _ v (updated_row u row)) by apply lookup_insert_eq.
    rewrite (route_update_run _ _ (merge_updates u v) _ Hrow).
    by rewrite updated_row_merge, updated_database_twice. }
  split; [apply Hgen|]. by rewrite Hgen, merge_updates_same.
Qed.

Lemma updates_compose_witness :
  tickets one_ticket !! 1 = Some (mkRow (PyStr "Bug") (PyStr "Fix crash") (PyStr "open")) /\
  route_update 1 (TicketUpdate.mk None None (Some (Some "closed")))
    (route_update 1 (TicketUpdate.mk (Some (Some "Crash")) None None) one_ticket).2 =
  route_update 1 (TicketUpdate.mk (Some (Some "Crash")) None (Some (Some "closed")))
    one_ticket.
Proof.
  split; [reflexivity|].
  apply (updates_compose one_ticket 1 _
           (TicketUpdate.mk (Some (Some "Crash")) None None)
           (TicketUpdate.mk None None (Some (Some "closed"))) eq_refl).
Defined.

(** X11: what the GET route answers for a ticket can be sent back as the
    body of a PUT on the same id: the PUT answers what the GET answered and
    the database is as it was. *)
Theorem put_back_what_get_returned (D : Database) (ticket_id : Z) (row : Row) :
  tickets D !! ticket_id = Some row ->
  row_is_text row = true ->
  app (PUT_ticket ticket_id (content (app (GET_ticket ticket_id) D).1)) D =
    app (GET_ticket ticket_id) D.
Proof.
  intros Hrow (ti & de & st & ->)%row_is_text_inv.
  unfold app at 2 3. rewrite (route_get_run _ _ _ Hrow).
  change (app (PUT_ticket ticket_id _) D)
    with (route_update ticket_id
            (TicketUpdate.mk (Some (Some ti)) (Some (Some de)) (Some (Some st))) D).
  rewrite (route_update_run _ _ _ _ Hrow).
  unfold updated_database, updated_row. cbn.
  rewrite insert_id by done. by destruct D.
Qed.

Lemma put_back_what_get_returned_witness :
  tickets one_ticket !! 1 = Some (mkRow (PyStr "Bug") (PyStr "Fix crash") (PyStr "open")) /\
  row_is_text (mkRow (PyStr "Bug") (PyStr "Fix crash") (PyStr "open")) = true /\
  app (PUT_ticket 1 (content (app (GET_ticket 1) one_ticket).1)) one_ticket =
    app (GET_ticket 1) one_ticket.
Proof.
  split; [reflexivity|]. split; [reflexivity|].
  apply (put_back_what_get_returned one_ticket 1 _ eq_refl eq_refl).
Defined.

(** X12: once a ticket has been deleted, a second DELETE and any PUT on
    its id are answered 404 and change nothing; the tickets under other ids
    are the ones that were there before the deletion. *)
Theorem deleted_ticket_stays_gone (D : Database) (ticket_id : Z) (row : Row) :
  tickets D !! ticket_id = Some row ->
  let D' := (app (DELETE_ticket ticket_id) D).2 in
  app (DELETE_ticket ticket_id) D' = (not_found, D') /\
  (forall ticket, route_update ticket_id ticket D' = (not_found, D')) /\
  (forall k, k <> ticket_id -> tickets D' !! k = tickets D !! k).
Proof.
  intros Hrow D'.
  assert (HD' : D' = deleted_database ticket_id D).
  { unfold D', app. by rewrite (route_delete_run _ _ _ Hrow). }
  assert (Hgone : tickets D' !! ticket_id = None).
  { rewrite HD'. apply lookup_delete_eq. }
  split; [by apply route_delete_404|].
  split; [intros ticket; by apply route_update_404|].
  intros k Hk. rewrite HD'. cbn. by rewrite lookup_delete_ne.
Qed.

Lemma deleted_ticket_stays_gone_witness :
  tickets one_ticket !! 1 = Some (mkRow (PyStr "Bug") (PyStr "Fix crash") (PyStr "open")) /\
  app (DELETE_ticket 1) (app (DELETE_ticket 1) one_ticket).2 =
    (not_found, (app (DELETE_ticket 1) one_ticket).2).
Proof.
  split; [reflexivity|].
  apply (deleted_ticket_stays_gone one_ticket 1 _ eq_refl).
Defined.

Lemma create_ticket_collision D ticket row :
  tickets D !! (last_id D + 1) = Some row ->
  exists db', ticket_service.create_ticket ticket (SessionLocal D) =
                (Raise IntegrityError, db') /\ bind db' = D.
Proof.
  intros Hrow. eexists.
  unfold ticket_service.create_ticket, commit, flush, refresh, flush_insert,
    INSERT, insert_row.
  py_run. split; reflexivity.
Qed.

Lemma route_create_status D ticket :
  status_code (route_create ticket D).1 = 201 \/
  status_code (route_create ticket D).1 = 500.
Proof.
  destruct (tickets D !! (last_id D + 1)) as [row|] eqn:Hnext.
  - right. destruct (create_ticket_collision D ticket row Hnext) as (db' & Hrun & _).
    unfold route_create, ticket_routes.create, endpoint.
    by rewrite bind_eq, Hrun.
  - left. by rewrite route_create_run.
Qed.

(** X13: a request that is answered 404 or 422 has not changed the
    database. *)
Theorem client_errors_leave_store_unchanged (req : Request) (D : Database) :
  status_code (app req D).1 = 404 \/ status_code (app req D).1 = 422 ->
  (app req D).2 = D.
Proof.
  intros Hcode.
  destruct req as [body| |ticket_id|ticket_id body|ticket_id].
  - unfold app in *. destruct (TicketCreate.model_validate body) as [ticket|]; [|done].
    destruct (route_create_status D ticket) as [H|H]; rewrite H in Hcode;
      by destruct Hcode.
  - by apply read_unchanged.
  - by apply read_unchanged.
  - unfold app in *. destruct (TicketUpdate.model_validate body) as [ticket|]; [|done].
    destruct (tickets D !! ticket_id) as [row|] eqn:Hrow.
    + rewrite (route_update_run _ _ _ _ Hrow) in Hcode. cbn [fst] in Hcode.
      destruct (response_of_status 200 (instance_of ticket_id (updated_row ticket row)))
        as [H|H]; rewrite H in Hcode; by destruct Hcode.
    + by rewrite route_update_404.
  - unfold app in *. destruct (tickets D !! ticket_id) as [row|] eqn:Hrow.
    + rewrite (route_delete_run _ _ _ Hrow) in Hcode. cbn [fst] in Hcode.
      destruct (response_of_status 200 (instance_of ticket_id row))
        as [H|H]; rewrite H in Hcode; by destruct Hcode.
    + by rewrite route_delete_404.
Qed.

Lemma client_errors_leave_store_unchanged_witness :
  (status_code (app (DELETE_ticket 7) one_ticket).1 = 404 \/
   status_code (app (DELETE_ticket 7) one_ticket).1 = 422) /\
  (app (DELETE_ticket 7) one_ticket).2 = one_ticket.
Proof.
  assert (H : status_code (app (DELETE_ticket 7) one_ticket).1 = 404 \/
              status_code (app (DELETE_ticket 7) one_ticket).1 = 422)
    by (left; reflexivity).
  split; [exact H|].
  apply (client_errors_leave_store_unchanged (DELETE_ticket 7) one_ticket H).
Defined.

(** X14: when an update leaves the ticket with a field that the output
    schema rejects, the route answers 500 and the update is stored all the
    same: the commit comes before the response is validated and nothing
    rolls it back. *)
Theorem failed_response_does_not_roll_back
  (D : Database) (ticket_id : Z) (row : Row) (ticket : TicketUpdate.t) :
  tickets D !! ticket_id = Some row ->
  row_is_text (updated_row ticket row) = false ->
  status_code (route_update ticket_id ticket D).1 = 500 /\
  tickets (route_update ticket_id ticket D).2 !! ticket_id =
    Some (updated_row ticket row).
Proof.
  intros Hrow Hbad. rewrite (route_update_run _ _ _ _ Hrow). cbn [fst snd].
  split; [|apply lookup_insert_eq].
  unfold response_of.
  by destruct (updated_row ticket row) as [[] [] []].
Qed.

Lemma failed_response_does_not_roll_back_witness :
  tickets one_ticket !! 1 = Some (mkRow (PyStr "Bug") (PyStr "Fix crash") (PyStr "open")) /\
  row_is_text
    (updated_row (TicketUpdate.mk (Some None) None None)
       (mkRow (PyStr "Bug") (PyStr "Fix crash") (PyStr "open"))) = false /\
  status_code (route_update 1 (TicketUpdate.mk (Some None) None None) one_ticket).1 = 500 /\
  tickets (route_update 1 (TicketUpdate.mk (Some None) None None) one_ticket).2 !! 1 =
    Some (mkRow PyNone (PyStr "Fix crash") (PyStr "open")).
Proof.
  split; [reflexivity|]. split; [reflexivity|].
  apply (failed_response_does_not_roll_back one_ticket 1 _
           (TicketUpdate.mk (Some None) None None) eq_refl eq_refl).
Defined.

(** ** The cycle of the tests, from any state *)

(** X15: in every state the application can reach, creating a ticket,
    fetching it, closing it, deleting it and fetching it again, all by the
    id the creation returned, is answered 201 with status "open", 200 with
    the same ticket, 200 with status "closed" and title and description
    unchanged, 200 with the closed ticket, and 404; afterwards the table
    holds the tickets it held before. *)
Theorem crud_cycle_from_any_state (reqs : list Request) (ticket : TicketCreate.t) :
  let D := state_after reqs in
  let n := last_id D + 1 in
  let shown st :=
    PyDict [("title", PyStr (TicketCreate.title ticket));
            ("description", PyStr (TicketCreate.description ticket));
            ("id", PyInt n); ("status", PyStr st)] in
  (run [POST_tickets (PyDict (TicketCreate.model_dump ticket)); GET_ticket n;
        PUT_ticket n close_it; DELETE_ticket n; GET_ticket n] D).1 =
    [mkResponse 201 (shown "open"); mkResponse 200 (shown "open");
     mkResponse 200 (shown "closed"); mkResponse 200 (shown "closed");
     mkResponse 404 (PyDict [("detail", PyStr "Ticket not found")])] /\
  tickets
    (run [POST_tickets (PyDict (TicketCreate.model_dump ticket)); GET_ticket n;
          PUT_ticket n close_it; DELETE_ticket n; GET_ticket n] D).2 = tickets D.
Proof.
  intros D n shown.
  pose proof (state_after_fresh reqs) as Hfresh. fold D in Hfresh. fold n in Hfresh.
  set (closing := TicketUpdate.mk None None (Some (Some "closed"))).
  set (D1 := created_database ticket D).
  set (D2 := updated_database n (updated_row closing (created_row ticket)) D1).
  set (D3 := deleted_database n D2).
  assert (H1 : app (POST_tickets (PyDict (TicketCreate.model_dump ticket))) D =
               (mkResponse 201 (shown "open"), D1)).
  { unfold app. by rewrite model_validate_dump, route_create_run. }
  assert (Hrow1 : tickets D1 !! n = Some (created_row ticket)) by apply lookup_insert_eq.
  assert (H2 : app (GET_ticket n) D1 = (mkResponse 200 (shown "open"), D1)).
  { unfold app. by rewrite (route_get_run _ _ _ Hrow1). }
  assert (H3 : app (PUT_ticket n close_it) D1 = (mkResponse 200 (shown "closed"), D2)).
  { change (app (PUT_ticket n close_it) D1) with (route_update n closing D1).
    by rewrite (route_update_run _ _ _ _ Hrow1). }
  assert (Hrow2 : tickets D2 !! n = Some (updated_row closing (created_row ticket)))
    by apply lookup_insert_eq.
  assert (H4 : app (DELETE_ticket n) D2 = (mkResponse 200 (shown "closed"), D3)).
  { unfold app. by rewrite (route_delete_run _ _ _ Hrow2). }
  assert (Hrow3 : tickets D3 !! n = None) by apply lookup_delete_eq.
  assert (H5 : app (GET_ticket n) D3 = (not_found, D3)).
  { unfold app. by rewrite route_get_404. }
  cbn [run]. rewrite H1. cbn [fst snd]. rewrite H2. cbn [fst snd].
  rewrite H3. cbn [fst snd]. rewrite H4. cbn [fst snd]. rewrite H5. cbn [fst snd].
  split; [reflexivity|].
  unfold D3, D2, D1, deleted_database, updated_database, created_database. cbn.
  by rewrite delete_insert_eq, delete_insert_id.
Qed.

(** ** Requests on different tickets *)


Lemma route_update_response D ticket_id ticket :
  (route_update ticket_id ticket D).1 =
  match tickets D !! ticket_id with
  | Some row => response_of 200 (instance_of ticket_id (updated_row ticket row))
  | None => not_found
  end.
Proof.
  destruct (tickets D !! ticket_id) as [row|] eqn:Hrow.
  - by rewrite (route_update_run _ _ _ _ Hrow).
  - by rewrite route_update_404.
Qed.


Lemma route_delete_response D ticket_id :
  (route_delete ticket_id D).1 =
  match tickets D !! ticket_id with
  | Some row => response_of 200 (instance_of ticket_id row)
  | None => not_found
  end.
Proof.
  destruct (tickets D !! ticket_id) as [row|] eqn:Hrow.
  - by rewrite (route_delete_run _ _ _ Hrow).
  - by rewrite route_delete_404.
Qed.



(** ** Status codes *)

Lemma list_response_status rows :
  status_code (list_response rows) = 200 \/ status_code (list_response rows) = 500.
Proof.
  unfold list_response. destruct (sequence_options _); [by left | by right].
Qed.

Lemma post_status body D :
  status_code (app (POST_tickets body) D).1 = 201 \/
  status_code (app (POST_tickets body) D).1 = 422 \/
  status_code (app (POST_tickets body) D).1 = 500.
Proof.
  unfold app. destruct (TicketCreate.model_validate body) as [ticket|].
  - destruct (route_create_status D ticket); auto.
  - right; by left.
Qed.

Ltac code_listed := cbn; repeat constructor.

Ltac not_a_post :=
  split; [code_listed | split; [discriminate | intros ? [=]]].

(** X17: the application answers with one of the codes 200, 201, 404,
    422 and 500 only; 201 is answered to a POST only, and a POST is never
    answered 200 or 404. *)
Theorem status_codes (req : Request) (D : Database) :
  status_code (app req D).1 ∈ [200; 201; 404; 422; 500] /\
  (status_code (app req D).1 = 201 -> exists body, req = POST_tickets body) /\
  (forall body, req = POST_tickets body ->
     status_code (app req D).1 ∈ [201; 422; 500]).
Proof.
  destruct req as [body| |ticket_id|ticket_id body|ticket_id].
  - destruct (post_status body D) as [-> | [-> | ->]];
      (split; [code_listed | split; [eauto | intros; code_listed]]).
  - unfold app. rewrite route_list_all_run. cbn [fst].
    destruct (list_response_status (map_to_list (tickets D))) as [-> | ->];
      not_a_post.
  - unfold app. destruct (tickets D !! ticket_id) as [row|] eqn:Hrow.
    + rewrite (route_get_run _ _ _ Hrow). cbn [fst].
      destruct (response_of_status 200 (instance_of ticket_id row)) as [-> | ->];
        not_a_post.
    + rewrite route_get_404 by done. not_a_post.
  - unfold app. destruct (TicketUpdate.model_validate body) as [ticket|];
      [|not_a_post].
    rewrite route_update_response.
    destruct (tickets D !! ticket_id) as [row|]; [|not_a_post].
    destruct (response_of_status 200 (instance_of ticket_id (updated_row ticket row)))
      as [-> | ->]; not_a_post.
  - unfold app. rewrite route_delete_response.
    destruct (tickets D !! ticket_id) as [row|]; [|not_a_post].
    destruct (response_of_status 200 (instance_of ticket_id row))
      as [-> | ->]; not_a_post.
Qed.
